(** * GBA save synchronisation tool: a shallow embedding of
    [main_sync_script.py] and the properties of its scanner, comparator,
    conversion invoker and sync directors.

    Modelling conventions.
    - A Python [str] is a Rocq [string]; each character stands for one code
      point below 256 (Latin-1), which is where [lower], [isspace] and the
      path separators take their meaning from.
    - A Python [float] (the modification times) is a primitive binary64
      [float]; subtraction, [abs] and [>] are the IEEE operations.
    - A [dict] keyed by strings is a [gmap string _].
    - The file system and the child processes are an explicit world that is
      threaded through the effectful functions, together with the lines
      written by [print]. *)

From Stdlib Require Import ZArith Floats Ascii.
From stdpp Require Import gmap strings sorting list pretty.

(** ** Python string methods *)

Module PyStr.

(** [c.lower()] for one code point below 256: the ASCII capitals and the
    Latin-1 capitals U+00C0..U+00DE (but not the multiplication sign
    U+00D7) move up by 32. *)
Definition lower_char (c : ascii) : ascii :=
  let n := N_of_ascii c in
  if ((65 <=? n) && (n <=? 90))%N
     || ((192 <=? n) && (n <=? 222) && negb (n =? 215))%N
  then ascii_of_N (n + 32) else c.

(** [s.lower()] *)
Fixpoint lower (s : string) : string :=
  match s with
  | EmptyString => EmptyString
  | String c s' => String (lower_char c) (lower s')
  end.

(** [c.isspace()] for one code point below 256. *)
Definition isspace (c : ascii) : bool :=
  let n := N_of_ascii c in
  ((9 <=? n) && (n <=? 13))%N || ((28 <=? n) && (n <=? 32))%N
  || (n =? 133)%N || (n =? 160)%N.

(** [s.lstrip()] with the characters to drop given by [f]. *)
Fixpoint lstrip_by (f : ascii → bool) (s : string) : string :=
  match s with
  | EmptyString => EmptyString
  | String c s' => if f c then lstrip_by f s' else s
  end.

(** [s.rstrip()] with the characters to drop given by [f]. *)
Fixpoint rstrip_by (f : ascii → bool) (s : string) : string :=
  match s with
  | EmptyString => EmptyString
  | String c s' =>
      match rstrip_by f s' with
      | EmptyString => if f c then EmptyString else String c EmptyString
      | r => String c r
      end
  end.

(** [s.strip()] *)
Definition strip (s : string) : string :=
  rstrip_by isspace (lstrip_by isspace s).

(** [s[:n]] for [0 <= n]. *)
Fixpoint take (n : nat) (s : string) : string :=
  match n, s with
  | S n', String c s' => String c (take n' s')
  | _, _ => EmptyString
  end.

(** [s[n:]] for [0 <= n]. *)
Fixpoint drop (n : nat) (s : string) : string :=
  match n, s with
  | S n', String _ s' => drop n' s'
  | _, _ => s
  end.

(** [s[i:j]] for [0 <= i], [0 <= j]. *)
Definition slice (s : string) (i j : nat) : string :=
  take (j - i) (drop i s).

(** [s.startswith(p)] *)
Definition startswith (s p : string) : bool := String.prefix p s.

(** [s.endswith(p)] *)
Definition endswith (s p : string) : bool :=
  (String.length p <=? String.length s)%nat
  && String.eqb (drop (String.length s - String.length p) s) p.

(** [s.rfind(c)] for a one-character [c]: the highest index holding [c],
    or [-1]. [rfind_from i] searches a suffix that starts at index [i]. *)
Fixpoint rfind_from (i : Z) (s : string) (c : ascii) : Z :=
  match s with
  | EmptyString => (-1)%Z
  | String a s' =>
      let r := rfind_from (i + 1) s' c in
      if (0 <=? r)%Z then r else if Ascii.eqb a c then i else (-1)%Z
  end.

Definition rfind (s : string) (c : ascii) : Z := rfind_from 0 s c.

(** [sep.join(l)] *)
Definition join (sep : string) (l : list string) : string :=
  String.concat sep l.

(** [x or d] on strings: the empty string is falsy. *)
Definition or_else (x d : string) : string :=
  match x with EmptyString => d | _ => x end.

(** The line feed of ["\n"]. *)
Definition LF : string := String "010"%char EmptyString.

End PyStr.

(** ** [os.path] on POSIX ([posixpath] and [genericpath]) *)

Module PosixPath.
Import PyStr.

Definition sep : ascii := "/"%char.
Definition extsep : ascii := "."%char.

(** The [while filenameIndex < dotIndex] loop of [genericpath._splitext]:
    [true] as soon as a character other than the dot is met (the function
    then splits at [dotIndex]), [false] when the [k] characters from
    [filenameIndex] on are all dots. *)
Fixpoint splitext_scan (p : string) (filenameIndex k : nat) : bool :=
  match k with
  | O => false
  | S k' =>
      if negb (String.eqb (slice p filenameIndex (filenameIndex + 1))
                          (String extsep EmptyString))
      then true
      else splitext_scan p (filenameIndex + 1) k'
  end.

(** [os.path.splitext(p)] *)
Definition splitext (p : string) : string * string :=
  let sepIndex := rfind p sep in
  let dotIndex := rfind p extsep in
  if (sepIndex <? dotIndex)%Z then
    let filenameIndex := Z.to_nat (sepIndex + 1) in
    if splitext_scan p filenameIndex (Z.to_nat dotIndex - filenameIndex)
    then (take (Z.to_nat dotIndex) p, drop (Z.to_nat dotIndex) p)
    else (p, EmptyString)
  else (p, EmptyString).

(** [os.path.basename(p)] *)
Definition basename (p : string) : string :=
  let i := (rfind p sep + 1)%Z in
  drop (Z.to_nat i) p.

(** [os.path.dirname(p)] *)
Definition dirname (p : string) : string :=
  let i := (rfind p sep + 1)%Z in
  let head := take (Z.to_nat i) p in
  if negb (String.eqb head EmptyString)
     && negb (String.eqb (lstrip_by (Ascii.eqb sep) head) EmptyString)
  then rstrip_by (Ascii.eqb sep) head
  else head.

(** [os.path.join(a, b)] *)
Definition join2 (a b : string) : string :=
  if startswith b (String sep EmptyString) then b
  else if String.eqb a EmptyString || endswith a (String sep EmptyString)
       then a +:+ b
       else a +:+ String sep EmptyString +:+ b.

(** [os.path.join(a, *p)] *)
Definition join (a : string) (p : list string) : string :=
  fold_left join2 p a.

End PosixPath.

(** ** Data model *)

(** The value stored per game by the scanner:
    [{'path': ..., 'mtime': ..., 'ext': ...}]. *)
Record FileRecord := mkFileRecord {
  path : string;
  mtime : float;
  ext : string
}.

(** One entry of [differences['conflicts']]. *)
Record Conflict := mkConflict {
  basename : string;
  sd : FileRecord;
  local : FileRecord
}.

(** The dictionary built by [compare_folders]. *)
Record Differences := mkDifferences {
  sd_only : list FileRecord;
  local_only : list FileRecord;
  conflicts : list Conflict
}.

(** ** Directory scanner *)

(** What the scanner asks of the file system. [listdir] is [None] when
    [os.listdir] raises; [getmtime] is [inl e] when [os.path.getmtime] raises
    an [OSError] whose text is [e]. *)
Record FileSystem := mkFileSystem {
  isdir : string → bool;
  listdir : string → option (list string);
  isfile : string → bool;
  getmtime : string → string + float
}.

(** Truth value of the [extensions] argument: [None] and [[]] are falsy. *)
Definition truthy {A} (extensions : option (list A)) : bool :=
  match extensions with
  | Some (_ :: _) => true
  | _ => false
  end.

(** [actual_ext.lower() not in [e.lower() for e in extensions]] *)
Definition ext_not_listed (extensions : option (list string))
    (actual_ext : string) : bool :=
  negb (bool_decide
          (PyStr.lower actual_ext ∈ map PyStr.lower (default [] extensions))).

(** The 'true' base name of lines 50-52. *)
Definition true_basename_of (name_part_before_ext actual_ext : string) : string :=
  if String.eqb (PyStr.lower actual_ext) ".sav"
     && PyStr.endswith (PyStr.lower name_part_before_ext) ".gba"
  then fst (PosixPath.splitext name_part_before_ext)
  else name_part_before_ext.

(** The body of the [for filename in os.listdir(...)] loop. The state is
    [files_info] and the warnings printed so far. *)
Definition get_file_info_step (fs : FileSystem) (directory_path : string)
    (extensions : option (list string))
    (st : gmap string FileRecord * list string) (filename : string)
    : gmap string FileRecord * list string :=
  let '(files_info, printed) := st in
  if PyStr.startswith filename "._" then st
  else
    let '(name_part_before_ext, actual_ext) := PosixPath.splitext filename in
    if truthy extensions && ext_not_listed extensions actual_ext then st
    else
      let true_basename := true_basename_of name_part_before_ext actual_ext in
      let full_path := PosixPath.join directory_path [filename] in
      if isfile fs full_path then
        match getmtime fs full_path with
        | inr m =>
            (<[PyStr.lower true_basename :=
                 {| path := full_path; mtime := m;
                    ext := PyStr.lower actual_ext |}]> files_info,
             printed)
        | inl e =>
            (files_info,
             printed ++ ["Warning: Could not get file information for "
                         +:+ full_path +:+ ": " +:+ e])
        end
      else st.

(** [get_file_info(directory_path, extensions)]: the snapshot and the
    warnings printed, or [None] when [os.listdir] raises. *)
Definition get_file_info (fs : FileSystem) (directory_path : string)
    (extensions : option (list string))
    : option (gmap string FileRecord * list string) :=
  if negb (isdir fs directory_path) then Some (∅, [])
  else
    match listdir fs directory_path with
    | None => None
    | Some names =>
        Some (fold_left (get_file_info_step fs directory_path extensions)
                        names (∅, []))
    end.

(** ** Comparator *)

(** [abs(a - b) > 1.0] on floats. *)
Definition mtimes_differ (a b : float) : bool :=
  PrimFloat.ltb 1%float (PrimFloat.abs (PrimFloat.sub a b)).

(** [abs(a - b) <= 1.0] on floats. *)
Definition mtimes_close (a b : float) : bool :=
  PrimFloat.leb (PrimFloat.abs (PrimFloat.sub a b)) 1%float.

(** [sorted(list(set(sd_info.keys()).union(local_info.keys())))] *)
Definition all_basenames (sd_info local_info : gmap string FileRecord)
    : list string :=
  merge_sort String.le (elements (dom sd_info ∪ dom local_info)).

(** The body of the [for basename in all_basenames] loop. A stored record is
    a non-empty dict, hence truthy: [if sd_file] tests presence. *)
Definition compare_step (sd_info local_info : gmap string FileRecord)
    (differences : Differences) (basename : string) : Differences :=
  match sd_info !! basename, local_info !! basename with
  | Some sd_file, None =>
      {| sd_only := sd_only differences ++ [sd_file];
         local_only := local_only differences;
         conflicts := conflicts differences |}
  | None, Some local_file =>
      {| sd_only := sd_only differences;
         local_only := local_only differences ++ [local_file];
         conflicts := conflicts differences |}
  | Some sd_file, Some local_file =>
      if mtimes_differ (mtime sd_file) (mtime local_file)
         || negb (String.eqb (ext sd_file) (ext local_file))
      then
        {| sd_only := sd_only differences;
           local_only := local_only differences;
           conflicts := conflicts differences
                        ++ [{| basename := basename; sd := sd_file;
                               local := local_file |}] |}
      else differences
  | None, None => differences
  end.

(** [compare_folders(sd_info, local_info)] *)
Definition compare_folders (sd_info local_info : gmap string FileRecord)
    : Differences :=
  fold_left (compare_step sd_info local_info)
            (all_basenames sd_info local_info)
            {| sd_only := []; local_only := []; conflicts := [] |}.

(** ** Effects: exceptions, the host system and printed lines *)

(** The exceptions the script raises or catches, each with the text that
    [str(e)] gives. Every one of them is an instance of [Exception]. *)
Inductive Exception :=
| FileNotFoundError (msg : string)
| RuntimeError (msg : string)
| IOError (msg : string)
| OSError (msg : string).

(** [str(e)] *)
Definition str (e : Exception) : string :=
  match e with
  | FileNotFoundError msg | RuntimeError msg | IOError msg | OSError msg => msg
  end.

(** The result of [subprocess.run(..., capture_output=True, text=True)]. *)
Record CompletedProcess := mkCompletedProcess {
  returncode : Z;
  stdout : string;
  stderr : string
}.

(** The host the sync runs on: a world (files and whatever the helper
    programs do to them), the queries and commands the script issues, and
    the two values fixed at start-up. A command returns its outcome and the
    next world; [inl e] is the exception it raises. *)
Record Host := mkHost {
  World : Type;
  path_exists : string → World → bool;
  path_isfile : string → World → bool;
  makedirs : string → World → (Exception + unit) * World;
  subprocess_run :
    list string → string → World → (Exception + CompletedProcess) * World;
  sys_executable : string;
  EXTERNAL_CONVERSION_SCRIPTS_DIR : string
}.

(** The state threaded through the effectful code: the world and the
    lines printed so far, oldest first. *)
Record Machine (h : Host) := mkMachine {
  world : World h;
  printed : list string
}.
Arguments mkMachine {h} _ _.
Arguments world {h} _.
Arguments printed {h} _.

(** A computation that may raise and that changes the machine. *)
Definition M (h : Host) (A : Type) : Type :=
  Machine h → (Exception + A) * Machine h.

Definition ret {h A} (x : A) : M h A := λ st, (inr x, st).

Definition bind {h A B} (m : M h A) (k : A → M h B) : M h B :=
  λ st, match m st with
        | (inr x, st') => k x st'
        | (inl e, st') => (inl e, st')
        end.

Definition raise {h A} (e : Exception) : M h A := λ st, (inl e, st).

(** [try: m  except Exception as e: handler e] *)
Definition try_except {h A} (m : M h A) (handler : Exception → M h A) : M h A :=
  λ st, match m st with
        | (inr x, st') => (inr x, st')
        | (inl e, st') => handler e st'
        end.

(** A query of the world. *)
Definition ask {h A} (q : World h → A) : M h A := λ st, (inr (q (world st)), st).

(** A command on the world. *)
Definition call {h A} (c : World h → (Exception + A) * World h) : M h A :=
  λ st, let '(r, w) := c (world st) in (r, mkMachine w (printed st)).

(** [print(line)] *)
Definition print {h} (line : string) : M h unit :=
  λ st, (inr tt, mkMachine (world st) (printed st ++ [line])).

Notation "'let*' x ':=' m 'in' k" := (bind m (λ x, k))
  (at level 10, x name, m at level 100, k at level 200).

(** A [for] loop that carries [processed_count]. *)
Fixpoint for_each {h A} (items : list A) (body : nat → A → M h nat)
    (processed_count : nat) : M h nat :=
  match items with
  | [] => ret processed_count
  | x :: rest =>
      let* n := body processed_count x in
      for_each rest body n
  end.

(** ** Configuration paths *)

Definition SD_CARD_BASE_PATH : string := "/run/media/deck/MINUI".
Definition SD_CARD_SAVES_PATH : string :=
  PosixPath.join SD_CARD_BASE_PATH ["Saves"; "GBA"].
Definition LOCAL_SAVES_PATH : string :=
  "/home/deck/Documents/emulation/Emulation/saves/retroarch/saves".

(** ** Conversion invoker *)

Section Sync.
Variable h : Host.

(** [display_message(message)] *)
Definition display_message (message : string) : M h unit :=
  print (PyStr.LF +:+ "--- " +:+ message +:+ " ---").

(** The text of the [RuntimeError] raised on a non-zero exit status. *)
Definition error_message (script_name input_path output_path : string)
    (result : CompletedProcess) : string :=
  "Conversion failed for " +:+ PosixPath.basename input_path +:+ " -> "
  +:+ PosixPath.basename output_path +:+ " "
  +:+ " using " +:+ script_name +:+ "." +:+ PyStr.LF
  +:+ "Stderr: " +:+ PyStr.or_else (PyStr.strip (stderr result)) "No Stderr"
  +:+ PyStr.LF
  +:+ "Stdout: " +:+ PyStr.or_else (PyStr.strip (stdout result)) "No Stdout".

(** Lines 122-125 of [_run_conversion_script]: make sure the directory of
    [output_path] exists before the helper writes there. *)
Definition ensure_output_dir (output_path : string) : M h unit :=
  let output_dir := PosixPath.dirname output_path in
  if negb (String.eqb output_dir "") then
    let* present := ask (path_exists h output_dir) in
    if negb present then call (makedirs h output_dir) else ret tt
  else ret tt.

(** The argument list handed to [subprocess.run]. *)
Definition command_of (script_full_path input_path output_path : string)
    : list string :=
  [sys_executable h; script_full_path; "-i"; input_path; "-o"; output_path].

(** [_run_conversion_script(script_name, input_path, output_path)] *)
Definition _run_conversion_script (script_name input_path output_path : string)
    : M h string :=
  let script_full_path :=
    PosixPath.join (EXTERNAL_CONVERSION_SCRIPTS_DIR h) [script_name] in
  let* found := ask (path_exists h script_full_path) in
  if negb found then
    raise (FileNotFoundError
             ("External conversion script not found: " +:+ script_full_path))
  else
  let* regular := ask (path_isfile h script_full_path) in
  if negb regular then
    raise (FileNotFoundError
             ("External conversion script is not a file: "
              +:+ script_full_path))
  else
  let* _ := ensure_output_dir output_path in
  let command := command_of script_full_path input_path output_path in
  let* _ := print ("  Executing conversion: " +:+ PyStr.join " " command) in
  try_except
    (let* result :=
       call (subprocess_run h command (EXTERNAL_CONVERSION_SCRIPTS_DIR h)) in
     if negb (returncode result =? 0)%Z then
       raise (RuntimeError
                (error_message script_name input_path output_path result))
     else ret output_path)
    (λ e, raise (IOError ("Failed to run conversion command: " +:+ str e))).

(** ** Sync directors *)

(** Body of the first loop of [sync_sd_to_local]. *)
Definition sd_to_local_only (processed_count : nat) (sd_file : FileRecord)
    : M h nat :=
  let basename_for_output :=
    fst (PosixPath.splitext
           (fst (PosixPath.splitext (PosixPath.basename (path sd_file))))) in
  let target_path :=
    PosixPath.join LOCAL_SAVES_PATH [basename_for_output +:+ ".srm"] in
  try_except
    (let* _ := _run_conversion_script "sav-to-srm.py" (path sd_file)
                                      target_path in
     let* _ := print ("  -> Copied '" +:+ PosixPath.basename (path sd_file)
                      +:+ "' (SD) to '" +:+ PosixPath.basename target_path
                      +:+ "' (Local).") in
     ret (processed_count + 1))
    (λ e,
     let* _ := print ("  Error copying/converting '"
                      +:+ PosixPath.basename (path sd_file)
                      +:+ "' to Local: " +:+ str e) in
     ret processed_count).

(** Body of the second loop of [sync_sd_to_local]. *)
Definition sd_to_local_conflict (processed_count : nat) (conflict : Conflict)
    : M h nat :=
  let sd_file := sd conflict in
  let local_file := local conflict in
  let basename_for_output := basename conflict in
  if PrimFloat.ltb (mtime local_file) (mtime sd_file) then
    let target_path :=
      PosixPath.join LOCAL_SAVES_PATH [basename_for_output +:+ ".srm"] in
    try_except
      (let* _ := _run_conversion_script "sav-to-srm.py" (path sd_file)
                                        target_path in
       let* _ := print ("  -> Resolved conflict for '" +:+ basename_for_output
                        +:+ "': Updated Local with newer SD file '"
                        +:+ PosixPath.basename (path sd_file) +:+ "'.") in
       ret (processed_count + 1))
      (λ e,
       let* _ := print ("  Error resolving conflict for '"
                        +:+ basename_for_output +:+ "' (SD->Local): "
                        +:+ str e) in
       ret processed_count)
  else if String.eqb (ext sd_file) ".sav" && String.eqb (ext local_file) ".srm"
          && mtimes_close (mtime sd_file) (mtime local_file) then
    let* _ := print ("  -> Skipping '" +:+ basename_for_output
                     +:+ "': Local version already exists as .srm with similar modification time to SD's .sav.") in
    ret processed_count
  else
    let* _ := print ("  -> Skipping '" +:+ basename_for_output
                     +:+ "': Local version appears newer or preferred. Choose Local to SD sync to update SD if desired.") in
    ret processed_count.

(** [sync_sd_to_local(sd_info, local_info, differences)]. The source prints
    [processed_count] in its closing message and returns nothing; the model
    also returns the count. *)
Definition sync_sd_to_local (sd_info local_info : gmap string FileRecord)
    (differences : Differences) : M h nat :=
  let* _ := display_message "Initiating Sync: SD Card to Local Folder" in
  let* n1 := for_each (sd_only differences) sd_to_local_only 0 in
  let* processed_count :=
    for_each (conflicts differences) sd_to_local_conflict n1 in
  let* _ := display_message ("SD to Local Sync Complete. "
                             +:+ pretty processed_count
                             +:+ " files processed/updated.") in
  ret processed_count.

(** Body of the first loop of [sync_local_to_sd]. *)
Definition local_to_sd_only (processed_count : nat) (local_file : FileRecord)
    : M h nat :=
  let basename_for_output :=
    fst (PosixPath.splitext (PosixPath.basename (path local_file))) in
  let target_path :=
    PosixPath.join SD_CARD_SAVES_PATH [basename_for_output +:+ ".gba.sav"] in
  try_except
    (let* _ := _run_conversion_script "srm-to-sav.py" (path local_file)
                                      target_path in
     let* _ := print ("  -> Copied '" +:+ PosixPath.basename (path local_file)
                      +:+ "' (Local) to '" +:+ PosixPath.basename target_path
                      +:+ "' (SD).") in
     ret (processed_count + 1))
    (λ e,
     let* _ := print ("  Error copying/converting '"
                      +:+ PosixPath.basename (path local_file)
                      +:+ "' to SD: " +:+ str e) in
     ret processed_count).

(** Body of the second loop of [sync_local_to_sd]. *)
Definition local_to_sd_conflict (processed_count : nat) (conflict : Conflict)
    : M h nat :=
  let sd_file := sd conflict in
  let local_file := local conflict in
  let basename_for_output := basename conflict in
  if PrimFloat.ltb (mtime sd_file) (mtime local_file) then
    let target_path :=
      PosixPath.join SD_CARD_SAVES_PATH [basename_for_output +:+ ".gba.sav"] in
    try_except
      (let* _ := _run_conversion_script "srm-to-sav.py" (path local_file)
                                        target_path in
       let* _ := print ("  -> Resolved conflict for '" +:+ basename_for_output
                        +:+ "': Updated SD with newer Local file '"
                        +:+ PosixPath.basename (path local_file) +:+ "'.") in
       ret (processed_count + 1))
      (λ e,
       let* _ := print ("  Error resolving conflict for '"
                        +:+ basename_for_output +:+ "' (Local->SD): "
                        +:+ str e) in
       ret processed_count)
  else if String.eqb (ext sd_file) ".sav" && String.eqb (ext local_file) ".srm"
          && mtimes_close (mtime sd_file) (mtime local_file) then
    let* _ := print ("  -> Skipping '" +:+ basename_for_output
                     +:+ "': SD version already exists as .sav with similar modification time to Local's .srm.") in
    ret processed_count
  else
    let* _ := print ("  -> Skipping '" +:+ basename_for_output
                     +:+ "': SD version appears newer or preferred. Choose SD to Local sync to update Local if desired.") in
    ret processed_count.

(** [sync_local_to_sd(sd_info, local_info, differences)], returning the
    count it prints, as above. *)
Definition sync_local_to_sd (sd_info local_info : gmap string FileRecord)
    (differences : Differences) : M h nat :=
  let* _ := display_message "Initiating Sync: Local Folder to SD Card" in
  let* n1 := for_each (local_only differences) local_to_sd_only 0 in
  let* processed_count :=
    for_each (conflicts differences) local_to_sd_conflict n1 in
  let* _ := display_message ("Local to SD Sync Complete. "
                             +:+ pretty processed_count
                             +:+ " files processed/updated.") in
  ret processed_count.

End Sync.

(** ** Vocabulary of the statements *)

(** What one key adds to [sd_only]. *)
Definition sd_only_of (A B : gmap string FileRecord) (k : string) : option FileRecord :=
  match A !! k, B !! k with
  | Some r, None => Some r
  | _, _ => None
  end.

(** What one key adds to [local_only]. *)
Definition local_only_of (A B : gmap string FileRecord) (k : string) : option FileRecord :=
  match A !! k, B !! k with
  | None, Some r => Some r
  | _, _ => None
  end.

(** What one key adds to [conflicts]. *)
Definition conflict_of (A B : gmap string FileRecord) (k : string) : option Conflict :=
  match A !! k, B !! k with
  | Some ra, Some rb =>
      if mtimes_differ (mtime ra) (mtime rb) || negb (String.eqb (ext ra) (ext rb))
      then Some {| basename := k; sd := ra; local := rb |}
      else None
  | _, _ => None
  end.

(** A conflict with its two records exchanged. *)
Definition swap (c : Conflict) : Conflict :=
  {| basename := basename c; sd := local c; local := sd c |}.

(** The same file system with the metadata files hidden from every listing. *)
Definition without_metadata (fs : FileSystem) : FileSystem :=
  {| isdir := isdir fs;
     listdir := λ d, List.filter (λ f, negb (PyStr.startswith f "._")) <$> listdir fs d;
     isfile := isfile fs;
     getmtime := getmtime fs |}.

(** Every record of the snapshot was stored for a listed name that does
    not carry the metadata prefix. *)
Definition from_plain_names (d : string) (names : list string)
    (files_info : gmap string FileRecord) : Prop :=
  ∀ k r, files_info !! k = Some r →
    ∃ filename, filename ∈ names
                ∧ PyStr.startswith filename "._" = false
                ∧ path r = PosixPath.join d [filename].

(** What the loop body of the scanner decides from the name alone: [None]
    when the entry is skipped, else the key and the extension it stores. *)
Definition scan_name (extensions : option (list string)) (filename : string)
    : option (string * string) :=
  if PyStr.startswith filename "._" then None
  else
    let '(n, e) := PosixPath.splitext filename in
    if truthy extensions && ext_not_listed extensions e then None
    else Some (PyStr.lower (true_basename_of n e), PyStr.lower e).

(** Every stored extension is its own lower-cased form. *)
Definition lowercase_exts (files_info : gmap string FileRecord) : Prop :=
  ∀ k r, files_info !! k = Some r → PyStr.lower (ext r) = ext r.

(** An example card: the saves directory exists and lists [names], every
    entry is a regular file with the same modification time. *)
Definition card_fs (names : list string) : FileSystem :=
  {| isdir := λ d, String.eqb d SD_CARD_SAVES_PATH;
     listdir := λ _, Some names;
     isfile := λ _, true;
     getmtime := λ _, inr 1700000000%float |}.

(** [t] occurs inside [s]. *)
Definition carries (s t : string) : Prop :=
  ∃ before after, s = before +:+ t +:+ after.

(** The line printed before the helper is started. *)
Definition executing_line (h : Host) (script_name input_path output_path : string)
    : string :=
  "  Executing conversion: "
  +:+ PyStr.join " "
        (command_of h (PosixPath.join (EXTERNAL_CONVERSION_SCRIPTS_DIR h) [script_name])
                    input_path output_path).

(** Where [sync_sd_to_local] writes the converted copy of an SD-only file. *)
Definition local_target (sd_file : FileRecord) : string :=
  PosixPath.join LOCAL_SAVES_PATH
    [fst (PosixPath.splitext
            (fst (PosixPath.splitext (PosixPath.basename (path sd_file)))))
     +:+ ".srm"].

(** The machine after one more printed line. *)
Definition say {h} (st : Machine h) (line : string) : Machine h :=
  mkMachine (world st) (printed st ++ [line]).

(** [display_message(message)] as a printed line. *)
Definition banner (message : string) : string :=
  PyStr.LF +:+ "--- " +:+ message +:+ " ---".

(** Where the SD-to-Local director writes the copy that settles a conflict. *)
Definition local_conflict_target (conflict : Conflict) : string :=
  PosixPath.join LOCAL_SAVES_PATH [basename conflict +:+ ".srm"].

(** Where the Local-to-SD director writes the copy that settles a conflict. *)
Definition sd_conflict_target (conflict : Conflict) : string :=
  PosixPath.join SD_CARD_SAVES_PATH [basename conflict +:+ ".gba.sav"].

(** The test of the [elif] branch of both directors. *)
Definition legacy_pair (conflict : Conflict) : bool :=
  String.eqb (ext (sd conflict)) ".sav"
  && String.eqb (ext (local conflict)) ".srm"
  && mtimes_close (mtime (sd conflict)) (mtime (local conflict)).

(** The lines the two directors print for a conflict and for an SD-only
    file, as the source formats them. *)
Definition resolved_local_line (conflict : Conflict) : string :=
  "  -> Resolved conflict for '" +:+ basename conflict
  +:+ "': Updated Local with newer SD file '"
  +:+ PosixPath.basename (path (sd conflict)) +:+ "'.".

Definition resolved_sd_line (conflict : Conflict) : string :=
  "  -> Resolved conflict for '" +:+ basename conflict
  +:+ "': Updated SD with newer Local file '"
  +:+ PosixPath.basename (path (local conflict)) +:+ "'.".

Definition error_local_line (conflict : Conflict) (e : Exception) : string :=
  "  Error resolving conflict for '" +:+ basename conflict
  +:+ "' (SD->Local): " +:+ str e.

Definition error_sd_line (conflict : Conflict) (e : Exception) : string :=
  "  Error resolving conflict for '" +:+ basename conflict
  +:+ "' (Local->SD): " +:+ str e.

Definition skip_local_line (conflict : Conflict) : string :=
  "  -> Skipping '" +:+ basename conflict
  +:+ (if legacy_pair conflict
       then "': Local version already exists as .srm with similar modification time to SD's .sav."
       else "': Local version appears newer or preferred. Choose Local to SD sync to update SD if desired.").

Definition skip_sd_line (conflict : Conflict) : string :=
  "  -> Skipping '" +:+ basename conflict
  +:+ (if legacy_pair conflict
       then "': SD version already exists as .sav with similar modification time to Local's .srm."
       else "': SD version appears newer or preferred. Choose SD to Local sync to update Local if desired.").

Definition copied_local_line (sd_file : FileRecord) : string :=
  "  -> Copied '" +:+ PosixPath.basename (path sd_file) +:+ "' (SD) to '"
  +:+ PosixPath.basename (local_target sd_file) +:+ "' (Local).".

Definition error_copy_local_line (sd_file : FileRecord) (e : Exception) : string :=
  "  Error copying/converting '" +:+ PosixPath.basename (path sd_file)
  +:+ "' to Local: " +:+ str e.

(** A host for worked examples: its world is the list of commands run so
    far, every path exists, and the helper exits with status 1 exactly on
    the inputs selected by [fails]. *)
Definition demo_host (fails : string → bool) : Host :=
  {| World := list (list string);
     path_exists := λ _ _, true;
     path_isfile := λ _ _, true;
     makedirs := λ _ w, (inr tt, w);
     subprocess_run := λ command _ w,
       (inr (if fails (nth 3 command "")
             then {| returncode := 1; stdout := " partial output ";
                     stderr := "  bad save header " |}
             else {| returncode := 0; stdout := "ok"; stderr := "" |}),
        w ++ [command]);
     sys_executable := "/usr/bin/python3";
     EXTERNAL_CONVERSION_SCRIPTS_DIR := "/opt/gba-rom-save-tool/srm-to-sav" |}.

(** A machine of the example host. *)
Definition demo_machine (fails : string → bool) (commands : list (list string))
    (lines : list string) : Machine (demo_host fails) :=
  @mkMachine (demo_host fails) commands lines.

(** Two SD-only saves of the examples; the helper fails on the first. *)
Definition bad_sav : FileRecord :=
  {| path := "/run/media/deck/MINUI/Saves/GBA/bad.gba.sav";
     mtime := 1700000000%float; ext := ".sav" |}.

Definition zelda_sav : FileRecord :=
  {| path := "/run/media/deck/MINUI/Saves/GBA/zelda.gba.sav";
     mtime := 1700000000%float; ext := ".sav" |}.

Definition fails_on_bad : string → bool := String.eqb (path bad_sav).

(** The command the example host sees for an SD-only file. *)
Definition demo_command (sd_file : FileRecord) : list string :=
  ["/usr/bin/python3"; "/opt/gba-rom-save-tool/srm-to-sav/sav-to-srm.py";
   "-i"; path sd_file; "-o"; local_target sd_file].

(** What the invoker raises for [bad_sav] on the example host. *)
Definition bad_sav_error : Exception :=
  IOError ("Failed to run conversion command: Conversion failed for bad.gba.sav -> bad.srm  using sav-to-srm.py."
           +:+ PyStr.LF +:+ "Stderr: bad save header"
           +:+ PyStr.LF +:+ "Stdout: partial output").

(** The pair of the spec's example: the card holds [mario] as [.sav] with
    time 100, the local folder holds it as [.srm] with time 100.5. *)
Definition mario_sd : FileRecord :=
  {| path := "/run/media/deck/MINUI/Saves/GBA/mario.gba.sav";
     mtime := 100%float; ext := ".sav" |}.

Definition mario_local : FileRecord :=
  {| path := "/home/deck/Documents/emulation/Emulation/saves/retroarch/saves/mario.srm";
     mtime := 100.5%float; ext := ".srm" |}.

(** A conflict whose SD side is newer by half a second. *)
Definition near_tie : Conflict :=
  {| basename := "mario";
     sd := {| path := path mario_sd; mtime := 100.5%float; ext := ".sav" |};
     local := {| path := path mario_local; mtime := 100%float; ext := ".srm" |} |}.

(** A conflict whose SD side is newer by a hundred seconds. *)
Definition clear_win : Conflict :=
  {| basename := "mario";
     sd := {| path := path mario_sd; mtime := 200%float; ext := ".sav" |};
     local := {| path := path mario_local; mtime := 100%float; ext := ".srm" |} |}.

(** A helper that always succeeds. *)
Definition never_fails : string → bool := λ _, false.

(** The command the example host sees when a conflict is settled towards
    the local folder. *)
Definition demo_conflict_command (conflict : Conflict) : list string :=
  ["/usr/bin/python3"; "/opt/gba-rom-save-tool/srm-to-sav/sav-to-srm.py";
   "-i"; path (sd conflict); "-o"; local_conflict_target conflict].

(** [all(f(c) for c in s)] *)
Fixpoint all_chars (f : ascii → bool) (s : string) : bool :=
  match s with
  | EmptyString => true
  | String c s' => f c && all_chars f s'
  end.

(** ** Vocabulary of the further properties *)

(** [filename] is stored by the scanner under key [k] as record [r]. *)
Definition stored_as (fs : FileSystem) (d : string)
    (extensions : option (list string)) (filename k : string) (r : FileRecord)
    : Prop :=
  scan_name extensions filename = Some (k, ext r)
  ∧ path r = PosixPath.join d [filename]
  ∧ isfile fs (path r) = true
  ∧ getmtime fs (path r) = inr (mtime r).

(** The warning the scanner prints for [filename], if any. *)
Definition warning_of (fs : FileSystem) (d : string)
    (extensions : option (list string)) (filename : string) : option string :=
  match scan_name extensions filename with
  | None => None
  | Some _ =>
      if isfile fs (PosixPath.join d [filename]) then
        match getmtime fs (PosixPath.join d [filename]) with
        | inl e => Some ("Warning: Could not get file information for "
                         +:+ PosixPath.join d [filename] +:+ ": " +:+ e)
        | inr _ => None
        end
      else None
  end.

(** Where [sync_local_to_sd] writes the converted copy of a local-only
    file. *)
Definition sd_target (local_file : FileRecord) : string :=
  PosixPath.join SD_CARD_SAVES_PATH
    [fst (PosixPath.splitext (PosixPath.basename (path local_file)))
     +:+ ".gba.sav"].

(** The lines [sync_local_to_sd] prints for a local-only file. *)
Definition copied_sd_line (local_file : FileRecord) : string :=
  "  -> Copied '" +:+ PosixPath.basename (path local_file) +:+ "' (Local) to '"
  +:+ PosixPath.basename (sd_target local_file) +:+ "' (SD).".

Definition error_copy_sd_line (local_file : FileRecord) (e : Exception)
    : string :=
  "  Error copying/converting '" +:+ PosixPath.basename (path local_file)
  +:+ "' to SD: " +:+ str e.

(** The full path of a helper script. *)
Definition script_path (h : Host) (script_name : string) : string :=
  PosixPath.join (EXTERNAL_CONVERSION_SCRIPTS_DIR h) [script_name].

(** A loop body that never raises, counts at most one item and only adds to
    what is printed. *)
Definition contained {h A} (body : nat → A → M h nat) : Prop :=
  ∀ n x st, ∃ n' st',
    body n x st = (inr n', st')
    ∧ n ≤ n' ≤ n + 1
    ∧ printed st `prefix_of` printed st'.

(** ** The report and the interactive entry point *)

(** What [main] needs beyond the host of the sync: directory tests, listings
    and times as the scanner reads them, and [time.ctime], which is [None]
    where it raises. *)
Record Terminal := mkTerminal {
  term_host : Host;
  path_isdir : string → World term_host → bool;
  listdir_at : string → World term_host → option (list string);
  getmtime_at : string → World term_host → string + float;
  ctime : float → option string
}.

(** The file system the scanner sees in a given world. *)
Definition file_system (t : Terminal) (w : World (term_host t)) : FileSystem :=
  {| isdir := λ p, path_isdir t p w;
     listdir := λ p, listdir_at t p w;
     isfile := λ p, path_isfile (term_host t) p w;
     getmtime := λ p, getmtime_at t p w |}.

(** The machine after several more printed lines. *)
Definition says {h} (st : Machine h) (lines : list string) : Machine h :=
  mkMachine (world st) (printed st ++ lines).

(** Prints the lines of each item in turn; stops at the first item whose
    lines end with a failure ([false]), keeping what was printed. *)
Fixpoint print_each {A} (lines_of : A → list string * bool) (items : list A)
    : list string * bool :=
  match items with
  | [] => ([], true)
  | x :: rest =>
      let '(lines, ok) := lines_of x in
      if ok then
        let '(lines', ok') := print_each lines_of rest in
        (lines ++ lines', ok')
      else (lines, false)
  end.

(** The line of [print_differences] for a file found on one side only. *)
Definition only_lines (ctime : float → option string) (f : FileRecord)
    : list string * bool :=
  match ctime (mtime f) with
  | Some t =>
      (["  - " +:+ PosixPath.basename (path f) +:+ " (Last Modified: " +:+ t
        +:+ ")"], true)
  | None => ([], false)
  end.

(** The lines of [print_differences] for a conflict. *)
Definition conflict_lines (ctime : float → option string) (c : Conflict)
    : list string * bool :=
  let head := PyStr.LF +:+ "  - Game Base Name: " +:+ basename c in
  match ctime (mtime (sd c)) with
  | None => ([head], false)
  | Some t_sd =>
      let sd_line :=
        "    SD Card : " +:+ PosixPath.basename (path (sd c))
        +:+ " (Last Modified: " +:+ t_sd +:+ ", Ext: " +:+ ext (sd c) +:+ ")" in
      match ctime (mtime (local c)) with
      | None => ([head; sd_line], false)
      | Some t_local =>
          let local_line :=
            "    Local   : " +:+ t_local +:+ ", Ext: " +:+ ext (local c)
            +:+ ")" in
          let verdict :=
            if PrimFloat.ltb (mtime (local c)) (mtime (sd c))
            then "    (SD Card version is NEWER)"
            else if PrimFloat.ltb (mtime (sd c)) (mtime (local c))
                 then "    (Local version is NEWER)"
                 else "    (Modification times are similar, but extensions might differ)" in
          ([head; sd_line; local_line; verdict], true)
      end
  end.

(** One section of the report: nothing for an empty list, else the title
    and the lines of the items. *)
Definition report_section {A} (title : string)
    (lines_of : A → list string * bool) (items : list A) : list string * bool :=
  match items with
  | [] => ([], true)
  | _ => let '(lines, ok) := print_each lines_of items in (title :: lines, ok)
  end.

(** [any(sd_only or local_only or conflicts)]: the records and the conflict
    entries are non-empty dicts, hence truthy. *)
Definition any_difference (differences : Differences) : bool :=
  match sd_only differences with
  | _ :: _ => true
  | [] =>
      match local_only differences with
      | _ :: _ => true
      | [] => match conflicts differences with _ :: _ => true | [] => false end
      end
  end.

(** [print_differences(differences)]: the lines it prints and the value it
    returns, [None] when [time.ctime] raised on the way. *)
Definition print_differences (ctime : float → option string)
    (differences : Differences) : list string * option bool :=
  let opening := PyStr.LF +:+ "--- Detected Differences: ---" in
  if negb (any_difference differences) then
    ([opening;
      "No significant differences found. Folders are largely in sync."],
     Some false)
  else
    let '(l1, ok1) :=
      report_section
        (PyStr.LF +:+ "--- Files found ONLY on SD Card (will be copied to Local if syncing SD -> Local):")
        (only_lines ctime) (sd_only differences) in
    if negb ok1 then (opening :: l1, None)
    else
      let '(l2, ok2) :=
        report_section
          (PyStr.LF +:+ "--- Files found ONLY in Local Folder (will be copied to SD if syncing Local -> SD):")
          (only_lines ctime) (local_only differences) in
      if negb ok2 then (opening :: l1 ++ l2, None)
      else
        let '(l3, ok3) :=
          report_section
            (PyStr.LF +:+ "--- Conflicts (Files present in both, but differ by modification time or extension):")
            (conflict_lines ctime) (conflicts differences) in
        (opening :: l1 ++ l2 ++ l3, if ok3 then Some true else None).

(** How a run of [main] ends. *)
Inductive Exit :=
| Returned
| Uncaught (e : Exception)
| ListdirRaised (directory : string)
| CtimeRaised
| EOFError.

(** [except OSError]: the kinds of the model that are [OSError]s. *)
Definition is_OSError (e : Exception) : bool :=
  match e with
  | RuntimeError _ => false
  | _ => true
  end.

(** The menu printed at each turn of the [while True] loop. *)
Definition menu : list string :=
  [PyStr.LF +:+ "------------------------------------";
   "Choose a sync direction or exit:";
   "1. Sync from SD Card to Local Folder (SD is the source of truth)";
   "   - New files on SD will be copied and converted to Local as .srm.";
   "   - Newer SD files will overwrite older Local files (converting .gba.sav to .srm).";
   "2. Sync from Local Folder to SD Card (Local is the source of truth)";
   "   - New files in Local will be copied and converted to SD as .gba.sav.";
   "   - Newer Local files will overwrite older SD files (converting .srm to .gba.sav).";
   "3. Exit without syncing";
   "------------------------------------"].

(** The prompt that [input] writes. *)
Definition prompt : string := "Enter your choice (1, 2, or 3): ".

(** The [while True] loop of [main], over the lines still to be read from
    the standard input: [input] raises [EOFError] when none is left. It
    returns how the run ends, the machine and the unread lines. *)
Fixpoint prompt_loop (h : Host) (sd_info local_info : gmap string FileRecord)
    (differences : Differences) (stdin : list string) (st : Machine h)
    : Exit * Machine h * list string :=
  let st := say (says st menu) prompt in
  match stdin with
  | [] => (EOFError, st, [])
  | line :: rest =>
      let choice := PyStr.strip line in
      if String.eqb choice "1" then
        match sync_sd_to_local h sd_info local_info differences st with
        | (inr _, st') => (Returned, st', rest)
        | (inl e, st') => (Uncaught e, st', rest)
        end
      else if String.eqb choice "2" then
        match sync_local_to_sd h sd_info local_info differences st with
        | (inr _, st') => (Returned, st', rest)
        | (inl e, st') => (Uncaught e, st', rest)
        end
      else if String.eqb choice "3" then
        (Returned, say st "Exiting without syncing. Goodbye!", rest)
      else
        prompt_loop h sd_info local_info differences rest
          (say st "Invalid choice. Please enter 1, 2, or 3.")
  end.

(** Lines 312-322 of [main]: create the local saves folder when it is
    missing. [inl] is how [main] ends there, [inr] lets it go on. *)
Definition ensure_local_saves_path (t : Terminal) (st : Machine (term_host t))
    : (Exit + unit) * Machine (term_host t) :=
  if negb (path_isdir t LOCAL_SAVES_PATH (world st)) then
    let st :=
      says st ["Warning: Local RetroArch saves path '" +:+ LOCAL_SAVES_PATH
               +:+ "' not found.";
               "Attempting to create: " +:+ LOCAL_SAVES_PATH] in
    match makedirs (term_host t) LOCAL_SAVES_PATH (world st) with
    | (inr _, w) =>
        (inr tt,
         say (mkMachine w (printed st))
             ("Successfully created local saves directory: "
              +:+ LOCAL_SAVES_PATH))
    | (inl e, w) =>
        if is_OSError e then
          (inl Returned,
           says (mkMachine w (printed st))
                ["Error creating local saves directory: " +:+ str e;
                 "Please create it manually or check permissions.";
                 "Exiting."])
        else (inl (Uncaught e), mkMachine w (printed st))
    end
  else (inr tt, st).

(** [main()], given the lines of the standard input. *)
Definition main (t : Terminal) (stdin : list string)
    (st : Machine (term_host t))
    : Exit * Machine (term_host t) * list string :=
  let st := say st (banner "GBA Save Sync Tool for Steam Deck") in
  if negb (path_isdir t SD_CARD_BASE_PATH (world st)) then
    (Returned,
     says st ["Error: SD Card base path '" +:+ SD_CARD_BASE_PATH
              +:+ "' not found.";
              "Please ensure your SD card is inserted and properly mounted.";
              "Exiting."],
     stdin)
  else if negb (path_isdir t SD_CARD_SAVES_PATH (world st)) then
    (Returned,
     says st ["Error: SD Card GBA saves path '" +:+ SD_CARD_SAVES_PATH
              +:+ "' not found.";
              "Please ensure the 'minui/Saves/GBA' directory exists on your SD card.";
              "Exiting."],
     stdin)
  else
    match ensure_local_saves_path t st with
    | (inl exit, st) => (exit, st, stdin)
    | (inr _, st) =>
        if negb (path_isdir t (EXTERNAL_CONVERSION_SCRIPTS_DIR (term_host t))
                            (world st)) then
          (Returned,
           says st ["Error: External conversion scripts directory '"
                    +:+ EXTERNAL_CONVERSION_SCRIPTS_DIR (term_host t)
                    +:+ "' not found.";
                    "Please ensure the 'srm-to-sav' folder is cloned or copied into your 'gba-rom-save-tool' directory.";
                    "Exiting."],
           stdin)
        else
          match get_file_info (file_system t (world st)) SD_CARD_SAVES_PATH
                              (Some [".sav"]) with
          | None => (ListdirRaised SD_CARD_SAVES_PATH, st, stdin)
          | Some (sd_info, warnings_sd) =>
              let st := says st warnings_sd in
              match get_file_info (file_system t (world st)) LOCAL_SAVES_PATH
                                  (Some [".srm"]) with
              | None => (ListdirRaised LOCAL_SAVES_PATH, st, stdin)
              | Some (local_info, warnings_local) =>
                  let st := says st warnings_local in
                  let st :=
                    says st
                      ["Found " +:+ pretty (size sd_info)
                       +:+ " GBA save files on SD card in '"
                       +:+ SD_CARD_SAVES_PATH +:+ "'.";
                       "Found " +:+ pretty (size local_info)
                       +:+ " RetroArch save files locally in '"
                       +:+ LOCAL_SAVES_PATH +:+ "'."] in
                  let differences := compare_folders sd_info local_info in
                  let '(lines, has_diff) :=
                    print_differences (ctime t) differences in
                  let st := says st lines in
                  match has_diff with
                  | None => (CtimeRaised, st, stdin)
                  | Some false =>
                      (Returned,
                       says st [PyStr.LF +:+ "No pending sync operations required based on current file states.";
                                "Exiting."],
                       stdin)
                  | Some true =>
                      prompt_loop (term_host t) sd_info local_info differences
                                  stdin st
                  end
              end
          end
    end.

(** What one refused answer adds to the output. *)
Definition refused : list string :=
  menu ++ [prompt; "Invalid choice. Please enter 1, 2, or 3."].

(** ** Example hosts and folders *)

(** A host whose answers are fixed: [present] tells which paths exist (as
    regular files), [made] is what [makedirs] answers and [ran] what
    [subprocess.run] answers; the world lists the commands run. *)
Definition fixed_host (present : string → bool) (made : Exception + unit)
    (ran : Exception + CompletedProcess) : Host :=
  {| World := list (list string);
     path_exists := λ p _, present p;
     path_isfile := λ p _, present p;
     makedirs := λ _ w, (made, w);
     subprocess_run := λ command _ w, (ran, w ++ [command]);
     sys_executable := "/usr/bin/python3";
     EXTERNAL_CONVERSION_SCRIPTS_DIR := "/opt/gba-rom-save-tool/srm-to-sav" |}.

(** A machine of a fixed host. *)
Definition fixed_machine present made ran (commands : list (list string))
    (lines : list string) : Machine (fixed_host present made ran) :=
  @mkMachine (fixed_host present made ran) commands lines.

(** Only the helper script exists. *)
Definition only_script : string → bool :=
  String.eqb "/opt/gba-rom-save-tool/srm-to-sav/sav-to-srm.py".

Definition exit_ok : Exception + CompletedProcess :=
  inr {| returncode := 0; stdout := "ok"; stderr := "" |}.

Definition read_only : Exception + unit :=
  inl (OSError "[Errno 30] Read-only file system").

Definition no_interpreter : Exception + CompletedProcess :=
  inl (FileNotFoundError "[Errno 2] No such file or directory: '/usr/bin/python3'").

(** An example local folder: like [card_fs], for the local saves path. *)
Definition local_fs (names : list string) : FileSystem :=
  {| isdir := λ d, String.eqb d LOCAL_SAVES_PATH;
     listdir := λ _, Some names;
     isfile := λ _, true;
     getmtime := λ _, inr 1700000000%float |}.

(** A card on which the time of [locked.gba.sav] cannot be read. *)
Definition locked_fs (names : list string) : FileSystem :=
  {| isdir := λ d, String.eqb d SD_CARD_SAVES_PATH;
     listdir := λ _, Some names;
     isfile := λ _, true;
     getmtime := λ p,
       if PyStr.endswith p "locked.gba.sav"
       then inl "[Errno 13] Permission denied"
       else inr 1700000000%float |}.

(** A local-only save of the examples. *)
Definition kirby_srm : FileRecord :=
  {| path := "/home/deck/Documents/emulation/Emulation/saves/retroarch/saves/kirby.srm";
     mtime := 1700000000%float; ext := ".srm" |}.

Definition bad_srm : FileRecord :=
  {| path := "/home/deck/Documents/emulation/Emulation/saves/retroarch/saves/bad.srm";
     mtime := 1700000000%float; ext := ".srm" |}.

Definition fails_on_bad_srm : string → bool := String.eqb (path bad_srm).

(** The command the example host sees for a local-only file. *)
Definition demo_sd_command (local_file : FileRecord) : list string :=
  ["/usr/bin/python3"; "/opt/gba-rom-save-tool/srm-to-sav/srm-to-sav.py";
   "-i"; path local_file; "-o"; sd_target local_file].

(** A conflict whose local side is newer. *)
Definition local_win : Conflict :=
  {| basename := "mario";
     sd := {| path := path mario_sd; mtime := 100%float; ext := ".sav" |};
     local := {| path := path mario_local; mtime := 200%float; ext := ".srm" |} |}.

(** A terminal over the always-succeeding example host: [dirs] tells which
    directories exist, every listing is empty. *)
Definition demo_terminal (dirs : string → bool) : Terminal :=
  {| term_host := demo_host never_fails;
     path_isdir := λ p _, dirs p;
     listdir_at := λ _ _, Some [];
     getmtime_at := λ _ _, inr 1700000000%float;
     ctime := λ _, Some "Tue Nov 14 22:13:20 2023" |}.

Definition no_dirs : string → bool := λ _, false.

(** [mario] as scanned on both sides, with the same time. *)
Definition mario_scanned_sd : FileRecord :=
  {| path := "/run/media/deck/MINUI/Saves/GBA/mario.gba.sav";
     mtime := 1700000000%float; ext := ".sav" |}.

Definition mario_scanned_local : FileRecord :=
  {| path := "/home/deck/Documents/emulation/Emulation/saves/retroarch/saves/mario.srm";
     mtime := 1700000000%float; ext := ".srm" |}.

(** What the invoker raises for [bad_srm] on the example host. *)
Definition bad_srm_error : Exception :=
  IOError ("Failed to run conversion command: Conversion failed for bad.srm -> bad.gba.sav  using srm-to-sav.py."
           +:+ PyStr.LF +:+ "Stderr: bad save header"
           +:+ PyStr.LF +:+ "Stdout: partial output").

(** A [time.ctime] that formats every time alike. *)
Definition fixed_ctime : float → option string :=
  λ _, Some "Tue Nov 14 22:13:20 2023".

Definition zelda_target : string :=
  "/home/deck/Documents/emulation/Emulation/saves/retroarch/saves/zelda.srm".

(** * Properties *)

Section FloatSym.
Variables prec emax : Z.

Lemma SFabs_binary_round_aux sx mx ex lx :
  SFabs (binary_round_aux prec emax sx mx ex lx)
  = SFabs (binary_round_aux prec emax false mx ex lx).
Proof.
  unfold binary_round_aux.
  destruct (shr_fexp prec emax mx ex lx) as [mrs' e'].
  destruct (shr_fexp prec emax _ e' loc_Exact) as [mrs'' e''].
  destruct (shr_m mrs''); [reflexivity| |reflexivity].
  destruct (Z.leb e'' (emax - prec)); reflexivity.
Qed.

Lemma SFabs_binary_normalize_opp m e sz :
  SFabs (binary_normalize prec emax (- m) e sz)
  = SFabs (binary_normalize prec emax m e sz).
Proof.
  destruct m as [|p|p]; simpl; [reflexivity| |];
    unfold binary_round;
    destruct (shl_align p e _) as [mz ez];
    [ apply SFabs_binary_round_aux
    | symmetry; apply SFabs_binary_round_aux ].
Qed.

Lemma SFabs_SFsub_comm x y :
  SFabs (SFsub prec emax x y) = SFabs (SFsub prec emax y x).
Proof.
  destruct x as [sx|sx| |sx mx ex], y as [sy|sy| |sy my ey];
    try (destruct sx); try (destruct sy); try reflexivity.
  all: unfold SFsub; rewrite (Z.min_comm ey ex).
  all: rewrite <- SFabs_binary_normalize_opp.
  all: f_equal; f_equal; simpl; lia.
Qed.
End FloatSym.

Lemma mtimes_differ_comm a b : mtimes_differ a b = mtimes_differ b a.
Proof.
  unfold mtimes_differ.
  rewrite !ltb_spec, !abs_spec, !sub_spec.
  unfold SF64sub. by rewrite SFabs_SFsub_comm.
Qed.

Lemma compare_fold (A B : gmap string FileRecord) ks acc :
  fold_left (compare_step A B) ks acc
  = {| sd_only := sd_only acc ++ omap (sd_only_of A B) ks;
       local_only := local_only acc ++ omap (local_only_of A B) ks;
       conflicts := conflicts acc ++ omap (conflict_of A B) ks |}.
Proof.
  revert acc. induction ks as [|k ks IH]; intros acc; simpl.
  - rewrite !app_nil_r. by destruct acc.
  - rewrite IH. unfold compare_step, sd_only_of, local_only_of, conflict_of.
    destruct (A !! k) as [ra|], (B !! k) as [rb|]; simpl;
      try (destruct (_ || _); simpl); by rewrite <- ?app_assoc.
Qed.

Lemma compare_folders_lists (A B : gmap string FileRecord) :
  compare_folders A B
  = {| sd_only := omap (sd_only_of A B) (all_basenames A B);
       local_only := omap (local_only_of A B) (all_basenames A B);
       conflicts := omap (conflict_of A B) (all_basenames A B) |}.
Proof. unfold compare_folders. by rewrite compare_fold. Qed.

Lemma elem_of_all_basenames (A B : gmap string FileRecord) k :
  k ∈ all_basenames A B ↔ is_Some (A !! k) ∨ is_Some (B !! k).
Proof.
  unfold all_basenames. rewrite merge_sort_Permutation.
  by rewrite elem_of_elements, elem_of_union, !elem_of_dom.
Qed.

Lemma all_basenames_comm (A B : gmap string FileRecord) :
  all_basenames A B = all_basenames B A.
Proof. unfold all_basenames. by rewrite (union_comm_L (dom A)). Qed.

Lemma all_basenames_sorted (A B : gmap string FileRecord) :
  StronglySorted String.le (all_basenames A B).
Proof. apply StronglySorted_merge_sort; apply _. Qed.

Lemma all_basenames_NoDup (A B : gmap string FileRecord) :
  NoDup (all_basenames A B).
Proof.
  unfold all_basenames. rewrite merge_sort_Permutation. apply NoDup_elements.
Qed.

Lemma eqb_neq_iff (s t : string) : negb (String.eqb s t) = true ↔ s ≠ t.
Proof. rewrite negb_true_iff. apply String.eqb_neq. Qed.

(** C1. For two snapshots and a key present in both, the pair is listed as a
    conflict exactly when [abs(mtimeA - mtimeB) > 1.0] or the extensions
    differ (so differing extensions alone make a conflict); the conflict
    list holds no other entry for that key, hence none when the pair is
    within tolerance with equal extensions; and every record of [sd_only]
    and of [local_only] belongs to some other key, one that the opposite
    snapshot lacks. *)
Theorem compare_conflict_iff (A B : gmap string FileRecord) k ra rb :
  A !! k = Some ra → B !! k = Some rb →
  (mkConflict k ra rb ∈ conflicts (compare_folders A B)
     ↔ mtimes_differ (mtime ra) (mtime rb) = true ∨ ext ra ≠ ext rb)
  ∧ (∀ c, c ∈ conflicts (compare_folders A B) → basename c = k →
          c = mkConflict k ra rb)
  ∧ (mtimes_differ (mtime ra) (mtime rb) = false → ext ra = ext rb →
     ∀ c, c ∈ conflicts (compare_folders A B) → basename c ≠ k)
  ∧ (∀ r, r ∈ sd_only (compare_folders A B) →
          ∃ k', k' ≠ k ∧ A !! k' = Some r ∧ B !! k' = None)
  ∧ (∀ r, r ∈ local_only (compare_folders A B) →
          ∃ k', k' ≠ k ∧ B !! k' = Some r ∧ A !! k' = None).
Proof.
  intros HA HB. rewrite compare_folders_lists; simpl.
  split; [|split; [|split; [|split]]].
  - rewrite list_elem_of_omap. split.
    + intros (k' & _ & Hc). unfold conflict_of in Hc.
      destruct (A !! k') as [ra'|] eqn:E1; [|done].
      destruct (B !! k') as [rb'|] eqn:E2; [|done].
      destruct (_ || _) eqn:E; [|done]. simplify_eq.
      apply orb_true_iff in E as [E|E]; [by left|right].
      by apply eqb_neq_iff.
    + intros Hc. exists k. split.
      * apply elem_of_all_basenames. left. by rewrite HA.
      * unfold conflict_of. rewrite HA, HB.
        assert (mtimes_differ (mtime ra) (mtime rb)
                || negb (String.eqb (ext ra) (ext rb)) = true) as ->; [|done].
        apply orb_true_iff. destruct Hc as [Hc|Hc]; [by left|right].
        by apply eqb_neq_iff.
  - intros c Hc Hk. apply list_elem_of_omap in Hc as (k' & _ & Hc).
    unfold conflict_of in Hc.
    destruct (A !! k') as [ra'|] eqn:E1; [|done].
    destruct (B !! k') as [rb'|] eqn:E2; [|done].
    destruct (_ || _); [|done]. simplify_eq/=. congruence.
  - intros Htime Hext c Hc Hk.
    apply list_elem_of_omap in Hc as (k' & _ & Hc).
    unfold conflict_of in Hc.
    destruct (A !! k') as [ra'|] eqn:E1; [|done].
    destruct (B !! k') as [rb'|] eqn:E2; [|done].
    destruct (_ || _) eqn:E; [|done]. simplify_eq/=.
    rewrite Htime, Hext, String.eqb_refl in E. done.
  - intros r Hr. apply list_elem_of_omap in Hr as (k' & _ & Hr).
    unfold sd_only_of in Hr. exists k'.
    destruct (A !! k') as [ra'|] eqn:E1; [|done].
    destruct (B !! k') as [rb'|] eqn:E2; [done|]. simplify_eq.
    split; [congruence|done].
  - intros r Hr. apply list_elem_of_omap in Hr as (k' & _ & Hr).
    unfold local_only_of in Hr. exists k'.
    destruct (A !! k') as [ra'|] eqn:E1; [done|].
    destruct (B !! k') as [rb'|] eqn:E2; [|done]. simplify_eq.
    split; [congruence|done].
Qed.

Lemma omap_cons {X Y} (f : X → option Y) x l :
  omap f (x :: l)
  = match f x with Some y => y :: omap f l | None => omap f l end.
Proof. reflexivity. Qed.

Lemma omap_swap (A B : gmap string FileRecord) ks :
  omap (conflict_of B A) ks = map swap (omap (conflict_of A B) ks).
Proof.
  induction ks as [|k ks IH]; [done|]. rewrite !omap_cons, IH.
  unfold conflict_of.
  destruct (A !! k) as [ra|], (B !! k) as [rb|]; try done.
  rewrite (mtimes_differ_comm (mtime rb)), (String.eqb_sym (ext rb)).
  by destruct (_ || _).
Qed.

(** C5. The comparator is symmetric: exchanging the two snapshots exchanges
    [sd_only] with [local_only], and yields the same conflicts, in the same
    order, with the two records of each conflict exchanged. *)
Theorem compare_folders_symmetric (A B : gmap string FileRecord) :
  sd_only (compare_folders A B) = local_only (compare_folders B A)
  ∧ local_only (compare_folders A B) = sd_only (compare_folders B A)
  ∧ conflicts (compare_folders B A)
    = map swap (conflicts (compare_folders A B)).
Proof.
  rewrite !compare_folders_lists, (all_basenames_comm B A); simpl.
  split; [|split].
  - induction (all_basenames A B) as [|k ks IH]; [done|].
    rewrite !omap_cons, IH.
    unfold sd_only_of, local_only_of.
    by destruct (A !! k), (B !! k).
  - induction (all_basenames A B) as [|k ks IH]; [done|].
    rewrite !omap_cons, IH.
    unfold sd_only_of, local_only_of.
    by destruct (A !! k), (B !! k).
  - apply omap_swap.
Qed.

(** C2, amended. With ["mario"] at time 100 and extension [.sav] in snapshot
    A and at time 100.5 and extension [.srm] in snapshot B, whatever the two
    paths, the comparison reports exactly one conflict, for that pair: the
    extensions differ, and that alone makes a conflict although the times
    are within the tolerance. *)
Theorem mixed_extension_pair_is_conflict path_a path_b :
  mtimes_differ 100%float 100.5%float = false
  ∧ compare_folders
      {[ "mario" := {| path := path_a; mtime := 100%float; ext := ".sav" |} ]}
      {[ "mario" := {| path := path_b; mtime := 100.5%float; ext := ".srm" |} ]}
    = {| sd_only := [];
         local_only := [];
         conflicts :=
           [ {| basename := "mario";
                sd := {| path := path_a; mtime := 100%float; ext := ".sav" |};
                local := {| path := path_b; mtime := 100.5%float;
                            ext := ".srm" |} |} ] |}.
Proof. split; vm_compute; reflexivity. Qed.

(** C7. Whatever the extensions filter, scanning a path that is not an
    existing directory returns the empty snapshot, normally. *)
Theorem scan_missing_directory fs directory_path extensions :
  isdir fs directory_path = false →
  get_file_info fs directory_path extensions = Some (∅, []).
Proof. intros H. unfold get_file_info. by rewrite H. Qed.

Lemma scan_fold_filter fs d exts names st :
  fold_left (get_file_info_step fs d exts)
            (List.filter (λ f, negb (PyStr.startswith f "._")) names) st
  = fold_left (get_file_info_step fs d exts) names st.
Proof.
  revert st. induction names as [|f names IH]; intros st; [done|].
  simpl. destruct (PyStr.startswith f "._") eqn:E; simpl.
  - rewrite IH. f_equal. unfold get_file_info_step. destruct st. by rewrite E.
  - apply IH.
Qed.

Lemma scan_step_origin fs d exts names files_info printed f :
  from_plain_names d names files_info →
  from_plain_names d (names ++ [f])
    (fst (get_file_info_step fs d exts (files_info, printed) f)).
Proof.
  intros Hinv.
  assert (from_plain_names d (names ++ [f]) files_info) as Hweak.
  { intros k r Hk. destruct (Hinv k r Hk) as (g & Hg & ?).
    exists g. split; [|done]. apply elem_of_app. by left. }
  unfold get_file_info_step.
  destruct (PyStr.startswith f "._") eqn:E; [done|].
  destruct (PosixPath.splitext f) as [n e].
  destruct (truthy exts && ext_not_listed exts e); [done|].
  destruct (isfile fs _); [|done].
  destruct (getmtime fs _) as [err|m]; [done|]. cbn [fst].
  intros k r Hk. destruct (decide (PyStr.lower (true_basename_of n e) = k)) as [<-|Hne].
  - rewrite lookup_insert_eq in Hk. simplify_eq. exists f.
    split; [|done]. apply elem_of_app. right. by apply list_elem_of_singleton.
  - rewrite lookup_insert_ne in Hk by done. by apply (Hweak k r).
Qed.

Lemma scan_fold_origin fs d exts names done_names st :
  from_plain_names d done_names (fst st) →
  from_plain_names d (done_names ++ names)
    (fst (fold_left (get_file_info_step fs d exts) names st)).
Proof.
  revert done_names st. induction names as [|f names IH]; intros done_names st H.
  - by rewrite app_nil_r.
  - simpl. replace (done_names ++ f :: names) with ((done_names ++ [f]) ++ names)
      by (by rewrite <- app_assoc).
    apply IH. destruct st as [fi pr]. by apply scan_step_origin.
Qed.

(** C8. Files whose name starts with ["._"] never reach the snapshot,
    whatever their extension: hiding them from the listing leaves the result
    of the scan unchanged, and every record of a snapshot was stored for a
    listed name without that prefix. *)
Theorem metadata_files_never_scanned fs directory_path extensions :
  get_file_info (without_metadata fs) directory_path extensions
  = get_file_info fs directory_path extensions
  ∧ ∀ files_info printed k r,
      get_file_info fs directory_path extensions = Some (files_info, printed) →
      files_info !! k = Some r →
      ∃ names filename,
        listdir fs directory_path = Some names
        ∧ filename ∈ names
        ∧ PyStr.startswith filename "._" = false
        ∧ path r = PosixPath.join directory_path [filename].
Proof.
  split.
  - unfold get_file_info, without_metadata; simpl.
    destruct (isdir fs directory_path); simpl; [|done].
    destruct (listdir fs directory_path) as [names|]; simpl; [|done].
    by rewrite scan_fold_filter.
  - unfold get_file_info. intros files_info printed k r Hscan Hk.
    destruct (isdir fs directory_path); simpl in Hscan; [|by simplify_eq].
    destruct (listdir fs directory_path) as [names|]; [|done].
    simplify_eq.
    pose proof (scan_fold_origin fs directory_path extensions names [] (∅, [])) as H.
    rewrite Hscan in H. simpl in H.
    destruct (H (λ k r Hk, ltac:(done)) k r Hk) as (f & ? & ? & ?).
    by exists names, f.
Qed.

Module PyStrFacts.
Import PyStr.

Lemma lower_char_idem c : lower_char (lower_char c) = lower_char c.
Proof. by destruct c as [[] [] [] [] [] [] [] []]. Qed.

Lemma lower_char_dot c : Ascii.eqb (lower_char c) "." = Ascii.eqb c ".".
Proof. by destruct c as [[] [] [] [] [] [] [] []]. Qed.

Lemma lower_char_slash c : Ascii.eqb (lower_char c) "/" = Ascii.eqb c "/".
Proof. by destruct c as [[] [] [] [] [] [] [] []]. Qed.

Lemma lower_char_underscore c : Ascii.eqb (lower_char c) "_" = Ascii.eqb c "_".
Proof. by destruct c as [[] [] [] [] [] [] [] []]. Qed.

Lemma lower_idem s : lower (lower s) = lower s.
Proof. induction s as [|c s IH]; simpl; [done|]. by rewrite lower_char_idem, IH. Qed.

Lemma length_lower s : String.length (lower s) = String.length s.
Proof. induction s as [|c s IH]; simpl; [done|]. by rewrite IH. Qed.

Lemma take_lower n s : take n (lower s) = lower (take n s).
Proof.
  revert s. induction n as [|n IH]; intros [|c s]; simpl; try done.
  by rewrite IH.
Qed.

Lemma drop_lower n s : drop n (lower s) = lower (drop n s).
Proof.
  revert s. induction n as [|n IH]; intros [|c s]; simpl; try done.
Qed.

Lemma slice_lower s i j : slice (lower s) i j = lower (slice s i j).
Proof. unfold slice. by rewrite drop_lower, take_lower. Qed.

Lemma rfind_from_lower c i s :
  (∀ a, Ascii.eqb (lower_char a) c = Ascii.eqb a c) →
  rfind_from i (lower s) c = rfind_from i s c.
Proof.
  intros Hc. revert i. induction s as [|a s IH]; intros i; simpl; [done|].
  by rewrite IH, Hc.
Qed.

Lemma eqb_lower_dot s :
  String.eqb (lower s) "." = String.eqb s ".".
Proof.
  destruct s as [|c [|c' s]]; simpl; try done.
  - by rewrite lower_char_dot.
  - by destruct (Ascii.eqb _ _), (Ascii.eqb _ _).
Qed.

Lemma prefix_cons a s1 b s2 :
  String.prefix (String a s1) (String b s2)
  = Ascii.eqb a b && String.prefix s1 s2.
Proof.
  simpl. destruct (ascii_dec a b) as [->|Hne].
  - by rewrite Ascii.eqb_refl.
  - apply Ascii.eqb_neq in Hne. by rewrite Hne.
Qed.

Lemma startswith_lower_metadata s :
  startswith (lower s) "._" = startswith s "._".
Proof.
  unfold startswith. destruct s as [|c [|c' s]]; cbn [lower]; [done| |].
  - rewrite !prefix_cons. by rewrite !andb_false_r.
  - rewrite !prefix_cons.
    rewrite (Ascii.eqb_sym _ (lower_char c)), (Ascii.eqb_sym _ (lower_char c')).
    rewrite lower_char_dot, lower_char_underscore.
    rewrite (Ascii.eqb_sym c), (Ascii.eqb_sym c').
    by destruct s.
Qed.

End PyStrFacts.

Module PosixPathFacts.
Import PyStr PyStrFacts PosixPath.

Lemma splitext_scan_lower p i k :
  splitext_scan (lower p) i k = splitext_scan p i k.
Proof.
  revert i. induction k as [|k IH]; intros i; simpl; [done|].
  by rewrite slice_lower, eqb_lower_dot, IH.
Qed.

Lemma splitext_lower p :
  splitext (lower p) = (lower (fst (splitext p)), lower (snd (splitext p))).
Proof.
  unfold splitext, rfind.
  rewrite (rfind_from_lower sep) by apply lower_char_slash.
  rewrite (rfind_from_lower extsep) by apply lower_char_dot.
  rewrite splitext_scan_lower, take_lower, drop_lower.
  destruct (_ <? _)%Z; [|done].
  by destruct (splitext_scan _ _ _).
Qed.

End PosixPathFacts.

Lemma get_file_info_step_scan_name fs d exts files_info printed f :
  get_file_info_step fs d exts (files_info, printed) f
  = match scan_name exts f with
    | None => (files_info, printed)
    | Some (k, e) =>
        if isfile fs (PosixPath.join d [f]) then
          match getmtime fs (PosixPath.join d [f]) with
          | inr m =>
              (<[k := {| path := PosixPath.join d [f]; mtime := m; ext := e |}]>
                 files_info, printed)
          | inl err =>
              (files_info,
               printed ++ ["Warning: Could not get file information for "
                           +:+ PosixPath.join d [f] +:+ ": " +:+ err])
          end
        else (files_info, printed)
    end.
Proof.
  unfold get_file_info_step, scan_name.
  destruct (PyStr.startswith f "._"); [done|].
  destruct (PosixPath.splitext f) as [n e].
  by destruct (truthy exts && ext_not_listed exts e).
Qed.

Lemma true_basename_of_lower n e :
  PyStr.lower (true_basename_of (PyStr.lower n) (PyStr.lower e))
  = PyStr.lower (true_basename_of n e).
Proof.
  unfold true_basename_of. rewrite !PyStrFacts.lower_idem.
  destruct (_ && _).
  - rewrite PosixPathFacts.splitext_lower. cbn [fst].
    by rewrite PyStrFacts.lower_idem.
  - by rewrite PyStrFacts.lower_idem.
Qed.

Lemma scan_name_lower exts f :
  scan_name exts (PyStr.lower f) = scan_name exts f.
Proof.
  unfold scan_name.
  rewrite PyStrFacts.startswith_lower_metadata, PosixPathFacts.splitext_lower.
  destruct (PyStr.startswith f "._"); [done|].
  destruct (PosixPath.splitext f) as [n e]; cbn [fst snd].
  unfold ext_not_listed. rewrite PyStrFacts.lower_idem.
  destruct (truthy exts && _); [done|].
  by rewrite true_basename_of_lower.
Qed.

Lemma scan_name_ext_lower exts f k e :
  scan_name exts f = Some (k, e) → PyStr.lower e = e.
Proof.
  unfold scan_name. destruct (PyStr.startswith f "._"); [done|].
  destruct (PosixPath.splitext f) as [n e'].
  destruct (truthy exts && _); [done|].
  intros [= <- <-]. apply PyStrFacts.lower_idem.
Qed.

Lemma scan_fold_lowercase fs d exts names st :
  lowercase_exts (fst st) →
  lowercase_exts (fst (fold_left (get_file_info_step fs d exts) names st)).
Proof.
  revert st. induction names as [|f names IH]; intros [fi pr] H; [done|].
  cbn [fold_left]. apply IH. rewrite get_file_info_step_scan_name.
  destruct (scan_name exts f) as [[k e]|] eqn:E; [|done].
  destruct (isfile fs _); [|done].
  destruct (getmtime fs _) as [err|m]; [done|]. cbn [fst].
  intros k' r Hk'. destruct (decide (k = k')) as [<-|Hne].
  - rewrite lookup_insert_eq in Hk'. simplify_eq. simpl.
    by eapply scan_name_ext_lower.
  - rewrite lookup_insert_ne in Hk' by done. by apply (H k' r).
Qed.

(** C10. Every record of a snapshot has a lower-cased extension field, and
    two names that differ only in letter case are treated alike by the
    scanner: both are skipped, or both are stored under the same key with the
    same extension field, so the tests on extensions made by the comparator
    and by the sync directors do not see the casing on disk. *)
Theorem scanned_ext_lowercase fs directory_path extensions :
  (∀ files_info printed k r,
     get_file_info fs directory_path extensions = Some (files_info, printed) →
     files_info !! k = Some r →
     PyStr.lower (ext r) = ext r)
  ∧ (∀ files_info printed f1 f2 m1 m2,
       PyStr.lower f1 = PyStr.lower f2 →
       isfile fs (PosixPath.join directory_path [f1]) = true →
       getmtime fs (PosixPath.join directory_path [f1]) = inr m1 →
       isfile fs (PosixPath.join directory_path [f2]) = true →
       getmtime fs (PosixPath.join directory_path [f2]) = inr m2 →
       (get_file_info_step fs directory_path extensions (files_info, printed) f1
          = (files_info, printed)
        ∧ get_file_info_step fs directory_path extensions (files_info, printed) f2
          = (files_info, printed))
       ∨ ∃ key e,
           PyStr.lower e = e
           ∧ get_file_info_step fs directory_path extensions
               (files_info, printed) f1
             = (<[key := {| path := PosixPath.join directory_path [f1];
                            mtime := m1; ext := e |}]> files_info, printed)
           ∧ get_file_info_step fs directory_path extensions
               (files_info, printed) f2
             = (<[key := {| path := PosixPath.join directory_path [f2];
                            mtime := m2; ext := e |}]> files_info, printed)).
Proof.
  split.
  - unfold get_file_info. intros files_info printed k r Hscan Hk.
    destruct (isdir fs directory_path); simpl in Hscan; [|by simplify_eq].
    destruct (listdir fs directory_path) as [names|]; [|done].
    simplify_eq.
    pose proof (scan_fold_lowercase fs directory_path extensions names (∅, [])) as H.
    rewrite Hscan in H. by apply (H (λ k r Hk, ltac:(done)) k r).
  - intros files_info printed f1 f2 m1 m2 Hlow Hf1 Hm1 Hf2 Hm2.
    rewrite !get_file_info_step_scan_name, Hf1, Hm1, Hf2, Hm2.
    rewrite <- (scan_name_lower _ f1), <- (scan_name_lower _ f2), Hlow.
    destruct (scan_name extensions (PyStr.lower f2)) as [[k e]|] eqn:E.
    + right. exists k, e. split; [|done]. by eapply scan_name_ext_lower.
    + by left.
Qed.

(** C9, at the input where the code departs from it. The file [.gba.sav]
    is accepted with extension [.sav]; what remains, [.gba], ends in the
    platform tag, yet the tag is not stripped: the key is [".gba"]. *)
Theorem dot_gba_sav_key :
  PyStr.endswith (PyStr.lower (fst (PosixPath.splitext ".gba.sav"))) ".gba" = true
  ∧ get_file_info (card_fs [".gba.sav"]) SD_CARD_SAVES_PATH (Some [".sav"])
    = Some ({[ ".gba" := {| path := "/run/media/deck/MINUI/Saves/GBA/.gba.sav";
                            mtime := 1700000000%float; ext := ".sav" |} ]}, []).
Proof. split; vm_compute; reflexivity. Qed.

Lemma append_cons x (a b : string) : String x a +:+ b = String x (a +:+ b).
Proof. reflexivity. Qed.

Lemma append_nil_r (a : string) : a +:+ "" = a.
Proof. induction a as [|x a IH]; [done|]. by rewrite append_cons, IH. Qed.

Lemma append_assoc (a b c : string) : (a +:+ b) +:+ c = a +:+ b +:+ c.
Proof. induction a as [|x a IH]; [done|]. by rewrite !append_cons, IH. Qed.

Lemma carries_middle (a t b : string) : carries (a +:+ t +:+ b) t.
Proof. by exists a, b. Qed.

Lemma carries_end (a t : string) : carries (a +:+ t) t.
Proof. exists a, "". by rewrite append_nil_r. Qed.

Lemma carries_prefixed (p s t : string) : carries s t → carries (p +:+ s) t.
Proof.
  intros (a & b & ->). exists (p +:+ a), b. by rewrite append_assoc.
Qed.

Lemma carries_or_else (s d : string) : carries (PyStr.or_else s d) s.
Proof.
  destruct s as [|x s]; simpl.
  - exists d, "". by rewrite append_nil_r.
  - exists "", "". by rewrite append_nil_r.
Qed.

(** Runs the monadic glue, leaving the calls to the host untouched. *)
Ltac run_m :=
  cbv beta iota zeta
      delta [bind ask try_except call print raise ret negb say];
  cbn [world printed].

Section SyncFacts.
Variable h : Host.

Lemma run_nonzero_exit script_name input_path output_path
    (st st1 : Machine h) result w2 :
  path_exists h (PosixPath.join (EXTERNAL_CONVERSION_SCRIPTS_DIR h) [script_name])
              (world st) = true →
  path_isfile h (PosixPath.join (EXTERNAL_CONVERSION_SCRIPTS_DIR h) [script_name])
              (world st) = true →
  ensure_output_dir h output_path st = (inr tt, st1) →
  subprocess_run h
    (command_of h (PosixPath.join (EXTERNAL_CONVERSION_SCRIPTS_DIR h) [script_name])
                input_path output_path)
    (EXTERNAL_CONVERSION_SCRIPTS_DIR h) (world st1) = (inr result, w2) →
  returncode result ≠ 0%Z →
  _run_conversion_script h script_name input_path output_path st
  = (inl (IOError ("Failed to run conversion command: "
                   +:+ error_message script_name input_path output_path result)),
     mkMachine w2 (printed st1
                   ++ [executing_line h script_name input_path output_path])).
Proof.
  intros Hex Hfile Hdir Hrun Hrc.
  apply Z.eqb_neq in Hrc.
  unfold _run_conversion_script, executing_line. run_m.
  rewrite Hex. run_m. rewrite Hfile. run_m. rewrite Hdir. run_m.
  rewrite Hrun. run_m. by rewrite Hrc.
Qed.

Lemma error_message_carries script_name input_path output_path result :
  carries (error_message script_name input_path output_path result)
          (PyStr.strip (stderr result))
  ∧ carries (error_message script_name input_path output_path result)
            (PyStr.strip (stdout result)).
Proof.
  unfold error_message. split.
  - do 10 apply carries_prefixed.
    destruct (carries_or_else (PyStr.strip (stderr result)) "No Stderr")
      as (a & b & ->).
    exists a, (b +:+ PyStr.LF +:+ "Stdout: " +:+ PyStr.or_else (PyStr.strip (stdout result)) "No Stdout").
    by rewrite !append_assoc.
  - do 13 apply carries_prefixed.
    apply carries_or_else.
Qed.

Lemma sd_to_local_only_failed n sd_file st e st' :
  _run_conversion_script h "sav-to-srm.py" (path sd_file)
    (local_target sd_file) st = (inl e, st') →
  sd_to_local_only h n sd_file st
  = (inr n, say st' ("  Error copying/converting '"
                     +:+ PosixPath.basename (path sd_file)
                     +:+ "' to Local: " +:+ str e)).
Proof.
  intros H. unfold sd_to_local_only. fold (local_target sd_file).
  run_m. by rewrite H.
Qed.

Lemma sd_to_local_only_done n sd_file st out st' :
  _run_conversion_script h "sav-to-srm.py" (path sd_file)
    (local_target sd_file) st = (inr out, st') →
  sd_to_local_only h n sd_file st
  = (inr (n + 1), say st' ("  -> Copied '" +:+ PosixPath.basename (path sd_file)
                           +:+ "' (SD) to '"
                           +:+ PosixPath.basename (local_target sd_file)
                           +:+ "' (Local).")).
Proof.
  intros H. unfold sd_to_local_only. fold (local_target sd_file).
  run_m. by rewrite H.
Qed.

End SyncFacts.

Section DirectorFacts.
Variable h : Host.

Lemma for_each_cons {A} (x : A) rest (body : nat → A → M h nat) n st :
  for_each (x :: rest) body n st
  = match body n x st with
    | (inr n', st') => for_each rest body n' st'
    | (inl e, st') => (inl e, st')
    end.
Proof. reflexivity. Qed.

Lemma sd_to_local_conflict_spec n conflict (st : Machine h) :
  sd_to_local_conflict h n conflict st
  = if PrimFloat.ltb (mtime (local conflict)) (mtime (sd conflict)) then
      match _run_conversion_script h "sav-to-srm.py" (path (sd conflict))
              (local_conflict_target conflict) st with
      | (inr _, st') => (inr (n + 1), say st' (resolved_local_line conflict))
      | (inl e, st') => (inr n, say st' (error_local_line conflict e))
      end
    else (inr n, say st (skip_local_line conflict)).
Proof.
  unfold sd_to_local_conflict, skip_local_line.
  fold (local_conflict_target conflict) (legacy_pair conflict).
  destruct (PrimFloat.ltb _ _).
  - run_m. by destruct (_run_conversion_script _ _ _ _ _) as [[e|out] st'].
  - by destruct (legacy_pair conflict).
Qed.

Lemma local_to_sd_conflict_spec n conflict (st : Machine h) :
  local_to_sd_conflict h n conflict st
  = if PrimFloat.ltb (mtime (sd conflict)) (mtime (local conflict)) then
      match _run_conversion_script h "srm-to-sav.py" (path (local conflict))
              (sd_conflict_target conflict) st with
      | (inr _, st') => (inr (n + 1), say st' (resolved_sd_line conflict))
      | (inl e, st') => (inr n, say st' (error_sd_line conflict e))
      end
    else (inr n, say st (skip_sd_line conflict)).
Proof.
  unfold local_to_sd_conflict, skip_sd_line.
  fold (sd_conflict_target conflict) (legacy_pair conflict).
  destruct (PrimFloat.ltb _ _).
  - run_m. by destruct (_run_conversion_script _ _ _ _ _) as [[e|out] st'].
  - by destruct (legacy_pair conflict).
Qed.

End DirectorFacts.

(** C3, amended. In each direction X to Y, a conflict starts a conversion
    of X's file to Y's location exactly when X's time is strictly greater
    than Y's, with no tolerance; the item then counts as processed if the
    conversion succeeds and is reported as an error otherwise. When X's time
    is not greater the item is skipped: nothing is run, the count is kept and
    one [Skipping] line is printed. *)
Theorem conflict_converted_iff_strictly_newer (h : Host) n conflict (st : Machine h) :
  (if PrimFloat.ltb (mtime (local conflict)) (mtime (sd conflict)) then
     sd_to_local_conflict h n conflict st
     = match _run_conversion_script h "sav-to-srm.py" (path (sd conflict))
               (local_conflict_target conflict) st with
       | (inr _, st') => (inr (n + 1), say st' (resolved_local_line conflict))
       | (inl e, st') => (inr n, say st' (error_local_line conflict e))
       end
   else
     sd_to_local_conflict h n conflict st
     = (inr n, say st (skip_local_line conflict)))
  ∧ (if PrimFloat.ltb (mtime (sd conflict)) (mtime (local conflict)) then
       local_to_sd_conflict h n conflict st
       = match _run_conversion_script h "srm-to-sav.py" (path (local conflict))
                 (sd_conflict_target conflict) st with
         | (inr _, st') => (inr (n + 1), say st' (resolved_sd_line conflict))
         | (inl e, st') => (inr n, say st' (error_sd_line conflict e))
         end
     else
       local_to_sd_conflict h n conflict st
       = (inr n, say st (skip_sd_line conflict))).
Proof.
  rewrite sd_to_local_conflict_spec, local_to_sd_conflict_spec.
  split; by destruct (PrimFloat.ltb _ _).
Qed.

(** C4. For a conflict with SD time 200 and local time 100, and a helper
    that succeeds, [sync_sd_to_local] converts and reports one processed
    file, while [sync_local_to_sd] on the same differences runs nothing,
    prints that it skips the item and reports zero processed files. *)
Theorem newer_sd_conflict_syncs_one_way (h : Host) sd_info local_info conflict
    (st st' : Machine h) out :
  mtime (sd conflict) = 200%float →
  mtime (local conflict) = 100%float →
  _run_conversion_script h "sav-to-srm.py" (path (sd conflict))
    (local_conflict_target conflict)
    (say st (banner "Initiating Sync: SD Card to Local Folder"))
  = (inr out, st') →
  sync_sd_to_local h sd_info local_info
    {| sd_only := []; local_only := []; conflicts := [conflict] |} st
  = (inr 1,
     say (say st' (resolved_local_line conflict))
         (banner "SD to Local Sync Complete. 1 files processed/updated."))
  ∧ sync_local_to_sd h sd_info local_info
      {| sd_only := []; local_only := []; conflicts := [conflict] |} st
    = (inr 0,
       say (say (say st (banner "Initiating Sync: Local Folder to SD Card"))
                ("  -> Skipping '" +:+ basename conflict
                 +:+ "': SD version appears newer or preferred. Choose SD to Local sync to update Local if desired."))
           (banner "Local to SD Sync Complete. 0 files processed/updated.")).
Proof.
  intros Hsd Hlocal Hrun. split.
  - unfold sync_sd_to_local, display_message. cbn [sd_only conflicts for_each].
    run_m. fold (banner "Initiating Sync: SD Card to Local Folder").
    change (mkMachine (world st) (printed st ++ [?l])) with (say st l).
    rewrite sd_to_local_conflict_spec, Hsd, Hlocal.
    change (PrimFloat.ltb 100 200) with true. cbv iota.
    rewrite Hrun. reflexivity.
  - unfold sync_local_to_sd, display_message. cbn [local_only conflicts for_each].
    run_m. fold (banner "Initiating Sync: Local Folder to SD Card").
    change (mkMachine (world st) (printed st ++ [?l])) with (say st l).
    rewrite local_to_sd_conflict_spec, Hsd, Hlocal.
    change (PrimFloat.ltb 200 100) with false. cbv iota.
    unfold skip_sd_line, legacy_pair. rewrite Hsd, Hlocal.
    change (mtimes_close 200 100) with false. rewrite andb_false_r.
    reflexivity.
Qed.

(** C6. When the helper exits with a non-zero status, the invoker raises an
    error whose text carries the stripped standard error and the stripped
    standard output of the child. The director catches the error of an
    item, prints it for that item without counting it, and goes on: a
    following item whose conversion succeeds is converted and counted. *)
Theorem failed_conversion_is_isolated (h : Host) :
  (∀ script_name input_path output_path (st st1 : Machine h) result w2,
     path_exists h
       (PosixPath.join (EXTERNAL_CONVERSION_SCRIPTS_DIR h) [script_name])
       (world st) = true →
     path_isfile h
       (PosixPath.join (EXTERNAL_CONVERSION_SCRIPTS_DIR h) [script_name])
       (world st) = true →
     ensure_output_dir h output_path st = (inr tt, st1) →
     subprocess_run h
       (command_of h
          (PosixPath.join (EXTERNAL_CONVERSION_SCRIPTS_DIR h) [script_name])
          input_path output_path)
       (EXTERNAL_CONVERSION_SCRIPTS_DIR h) (world st1) = (inr result, w2) →
     returncode result ≠ 0%Z →
     ∃ msg,
       _run_conversion_script h script_name input_path output_path st
       = (inl (IOError msg),
          mkMachine w2
            (printed st1
             ++ [executing_line h script_name input_path output_path]))
       ∧ carries msg (PyStr.strip (stderr result))
       ∧ carries msg (PyStr.strip (stdout result)))
  ∧ (∀ sd_info local_info failing next others (st st1 st2 : Machine h) e out,
       _run_conversion_script h "sav-to-srm.py" (path failing)
         (local_target failing)
         (say st (banner "Initiating Sync: SD Card to Local Folder"))
       = (inl e, st1) →
       _run_conversion_script h "sav-to-srm.py" (path next)
         (local_target next)
         (say st1 (error_copy_local_line failing e))
       = (inr out, st2) →
       sync_sd_to_local h sd_info local_info
         {| sd_only := [failing; next]; local_only := others; conflicts := [] |}
         st
       = (inr 1,
          say (say st2 (copied_local_line next))
              (banner "SD to Local Sync Complete. 1 files processed/updated."))).
Proof.
  split.
  - intros script_name input_path output_path st st1 result w2
           Hex Hfile Hdir Hrun Hrc.
    eexists. split; [by eapply run_nonzero_exit|].
    destruct (error_message_carries script_name input_path output_path result)
      as [H1 H2].
    split; by apply carries_prefixed.
  - intros sd_info local_info failing next others st st1 st2 e out Hfail Hnext.
    unfold sync_sd_to_local, display_message.
    cbn [sd_only conflicts for_each].
    run_m. fold (banner "Initiating Sync: SD Card to Local Folder").
    change (mkMachine (world st) (printed st ++ [?l])) with (say st l).
    rewrite (sd_to_local_only_failed h _ _ _ _ _ Hfail).
    fold (error_copy_local_line failing e).
    rewrite (sd_to_local_only_done h _ _ _ _ _ Hnext).
    reflexivity.
Qed.

Lemma failed_conversion_is_isolated_witness :
  (∃ msg,
     _run_conversion_script (demo_host fails_on_bad) "sav-to-srm.py"
       (path bad_sav) (local_target bad_sav) (demo_machine fails_on_bad [] [])
     = (inl (IOError msg),
        demo_machine fails_on_bad [demo_command bad_sav]
          [executing_line (demo_host fails_on_bad) "sav-to-srm.py"
             (path bad_sav) (local_target bad_sav)])
     ∧ carries msg "bad save header"
     ∧ carries msg "partial output")
  ∧ sync_sd_to_local (demo_host fails_on_bad) ∅ ∅
      {| sd_only := [bad_sav; zelda_sav]; local_only := []; conflicts := [] |}
      (demo_machine fails_on_bad [] [])
    = (inr 1,
       demo_machine fails_on_bad [demo_command bad_sav; demo_command zelda_sav]
         [banner "Initiating Sync: SD Card to Local Folder";
          executing_line (demo_host fails_on_bad) "sav-to-srm.py"
            (path bad_sav) (local_target bad_sav);
          error_copy_local_line bad_sav bad_sav_error;
          executing_line (demo_host fails_on_bad) "sav-to-srm.py"
            (path zelda_sav) (local_target zelda_sav);
          "  -> Copied 'zelda.gba.sav' (SD) to 'zelda.srm' (Local).";
          banner "SD to Local Sync Complete. 1 files processed/updated."]).
Proof.
  split.
  - apply (proj1 (failed_conversion_is_isolated (demo_host fails_on_bad))
             "sav-to-srm.py" (path bad_sav) (local_target bad_sav)
             (demo_machine fails_on_bad [] []) (demo_machine fails_on_bad [] [])
             {| returncode := 1; stdout := " partial output ";
                stderr := "  bad save header " |}
             [demo_command bad_sav]);
      [reflexivity | reflexivity | reflexivity | reflexivity | discriminate].
  - apply (proj2 (failed_conversion_is_isolated (demo_host fails_on_bad))
             ∅ ∅ bad_sav zelda_sav [] (demo_machine fails_on_bad [] [])
             (demo_machine fails_on_bad [demo_command bad_sav]
                [banner "Initiating Sync: SD Card to Local Folder";
                 executing_line (demo_host fails_on_bad) "sav-to-srm.py"
                   (path bad_sav) (local_target bad_sav)])
             (demo_machine fails_on_bad
                [demo_command bad_sav; demo_command zelda_sav]
                [banner "Initiating Sync: SD Card to Local Folder";
                 executing_line (demo_host fails_on_bad) "sav-to-srm.py"
                   (path bad_sav) (local_target bad_sav);
                 error_copy_local_line bad_sav bad_sav_error;
                 executing_line (demo_host fails_on_bad) "sav-to-srm.py"
                   (path zelda_sav) (local_target zelda_sav)])
             bad_sav_error (local_target zelda_sav));
      vm_compute; reflexivity.
Defined.

(** ** The platform tag is stripped from ordinary names *)

Module SplitextFacts.
Import PyStr PyStrFacts PosixPath.

Lemma all_chars_app f (a b : string) :
  all_chars f (a +:+ b) = all_chars f a && all_chars f b.
Proof.
  induction a as [|x a IH]; [done|].
  rewrite append_cons. simpl. by rewrite IH, andb_assoc.
Qed.

Lemma length_app (a b : string) :
  String.length (a +:+ b) = (String.length a + String.length b)%nat.
Proof. induction a as [|x a IH]; [done|]. rewrite append_cons. simpl. by rewrite IH. Qed.

Lemma take_app (a b : string) : take (String.length a) (a +:+ b) = a.
Proof.
  induction a as [|x a IH]; [by destruct b|].
  rewrite append_cons. simpl. by rewrite IH.
Qed.

Lemma drop_app (a b : string) : drop (String.length a) (a +:+ b) = b.
Proof. induction a as [|x a IH]; [done|]. by rewrite append_cons. Qed.

Lemma rfind_from_absent i s c :
  all_chars (λ a, negb (Ascii.eqb a c)) s = true → rfind_from i s c = (-1)%Z.
Proof.
  revert i. induction s as [|a s IH]; intros i H; [done|].
  simpl in *. apply andb_true_iff in H as [Ha Hs].
  rewrite (IH _ Hs). simpl. apply negb_true_iff in Ha. by rewrite Ha.
Qed.

Lemma rfind_from_last i n c r :
  (0 <= i)%Z →
  all_chars (λ a, negb (Ascii.eqb a c)) r = true →
  rfind_from i (n +:+ String c r) c = (i + Z.of_nat (String.length n))%Z.
Proof.
  intros Hi Hr. revert i Hi. induction n as [|a n IH]; intros i Hi.
  - change ("" +:+ String c r) with (String c r). simpl.
    rewrite (rfind_from_absent _ _ _ Hr). simpl.
    rewrite Ascii.eqb_refl. lia.
  - rewrite append_cons. cbn [rfind_from String.length].
    rewrite IH by lia.
    destruct (0 <=? _)%Z eqn:E; [lia|]. apply Z.leb_gt in E. lia.
Qed.

Lemma splitext_scan_spec (pre n x : string) :
  splitext_scan (pre +:+ n +:+ x) (String.length pre) (String.length n)
  = negb (all_chars (λ a, Ascii.eqb a extsep) n).
Proof.
  revert pre. induction n as [|c n IH]; intros pre; [done|].
  cbn [splitext_scan String.length all_chars].
  unfold slice.
  replace (String.length pre + 1 - String.length pre)%nat with 1%nat by lia.
  rewrite drop_app, append_cons. cbn [take String.eqb].
  replace (pre +:+ String c (n +:+ x)) with ((pre +:+ String c "") +:+ n +:+ x)
    by (by rewrite append_assoc).
  replace (String.length pre + 1)%nat with (String.length (pre +:+ String c ""))
    by (rewrite length_app; simpl; lia).
  rewrite IH. by destruct (Ascii.eqb c extsep).
Qed.

(** A name without separator that is not made of dots only, followed by a
    dot and a dotless tail, splits at that dot. *)
Lemma splitext_app n r :
  all_chars (λ a, negb (Ascii.eqb a sep)) n = true →
  all_chars (λ a, negb (Ascii.eqb a sep)) r = true →
  all_chars (λ a, negb (Ascii.eqb a extsep)) r = true →
  all_chars (λ a, Ascii.eqb a extsep) n = false →
  splitext (n +:+ String extsep r) = (n, String extsep r).
Proof.
  intros Hn Hr Hdot Hnot. unfold splitext, rfind.
  rewrite rfind_from_absent
    by (rewrite all_chars_app; simpl; rewrite Hn, Hr; done).
  rewrite rfind_from_last by (lia || done).
  destruct (_ <? _)%Z eqn:E; [|apply Z.ltb_ge in E; lia].
  change (-1 + 1)%Z with 0%Z. rewrite Z.add_0_l, Nat2Z.id.
  change (Z.to_nat 0) with 0%nat. rewrite Nat.sub_0_r.
  pose proof (splitext_scan_spec "" n (String extsep r)) as Hscan.
  cbn [String.length] in Hscan. change ("" +:+ ?s) with s in Hscan.
  rewrite Hscan, Hnot. cbn [negb].
  by rewrite take_app, drop_app.
Qed.

(** The shape of a tail whose lower-cased form is a given dotted tag. *)
Lemma dotted_tail_shape (t : string) x y z :
  lower t = String "." (String x (String y (String z ""))) →
  Ascii.eqb x "." = false → Ascii.eqb y "." = false → Ascii.eqb z "." = false →
  Ascii.eqb x "/" = false → Ascii.eqb y "/" = false → Ascii.eqb z "/" = false →
  ∃ r, t = String extsep r
       ∧ all_chars (λ a, negb (Ascii.eqb a sep)) r = true
       ∧ all_chars (λ a, negb (Ascii.eqb a extsep)) r = true.
Proof.
  intros Ht Hx Hy Hz Hx' Hy' Hz'.
  destruct t as [|d [|a [|b [|c [|? ?]]]]]; try done.
  simpl in Ht. injection Ht as Hd Ha Hb Hc.
  exists (String a (String b (String c ""))).
  assert (d = extsep) as ->.
  { apply Ascii.eqb_eq. rewrite <- lower_char_dot, Hd. done. }
  split; [done|]. unfold sep, extsep. simpl.
  rewrite <- (lower_char_slash a), <- (lower_char_slash b),
    <- (lower_char_slash c), <- (lower_char_dot a), <- (lower_char_dot b),
    <- (lower_char_dot c), Ha, Hb, Hc.
  by rewrite Hx, Hy, Hz, Hx', Hy', Hz'.
Qed.

Lemma lower_app (a b : string) : lower (a +:+ b) = lower a +:+ lower b.
Proof.
  induction a as [|x a IH]; [done|].
  rewrite append_cons. cbn [lower]. by rewrite IH, append_cons.
Qed.

Lemma endswith_app (a b : string) : endswith (a +:+ b) b = true.
Proof.
  unfold endswith. rewrite length_app.
  replace (String.length a + String.length b - String.length b)%nat
    with (String.length a) by lia.
  rewrite drop_app, String.eqb_refl, andb_true_r.
  apply Nat.leb_le. lia.
Qed.

Lemma prefix_nil s : String.prefix "" s = true.
Proof. by destruct s. Qed.

Lemma startswith_metadata_app (stem x : string) :
  all_chars (λ a, Ascii.eqb a extsep) stem = false →
  startswith stem "._" = false →
  startswith (stem +:+ x) "._" = false.
Proof.
  unfold startswith. intros Hdots Hstem.
  destruct stem as [|c [|c' s]]; [done| |].
  - rewrite append_cons. change ("" +:+ x) with x.
    simpl in Hdots. rewrite andb_true_r in Hdots.
    destruct x as [|c' x]; [done|].
    rewrite prefix_cons, Ascii.eqb_sym. unfold extsep in Hdots.
    by rewrite Hdots.
  - rewrite !append_cons, !prefix_cons, prefix_nil.
    by rewrite !prefix_cons, prefix_nil in Hstem.
Qed.

End SplitextFacts.

(** Away from the names made of dots and the tag alone, the scanner does
    strip the platform tag: a name [stem.gba.sav], in any letter case, with a
    stem that holds no separator and is not made of dots only, gets the key
    [lower stem] and the extension [.sav]. *)
Lemma scan_name_tagged_save stem tag e :
  all_chars (λ a, negb (Ascii.eqb a PosixPath.sep)) stem = true →
  all_chars (λ a, Ascii.eqb a PosixPath.extsep) stem = false →
  PyStr.startswith stem "._" = false →
  PyStr.lower tag = ".gba" →
  PyStr.lower e = ".sav" →
  PosixPath.splitext (stem +:+ tag +:+ e) = (stem +:+ tag, e)
  ∧ true_basename_of (stem +:+ tag) e = stem
  ∧ ∀ extensions, ext_not_listed extensions e = false →
      scan_name extensions (stem +:+ tag +:+ e)
      = Some (PyStr.lower stem, ".sav").
Proof.
  intros Hsep Hdots Hmeta Htag He.
  destruct (SplitextFacts.dotted_tail_shape tag "g" "b" "a" Htag)
    as (rt & -> & Hrt_sep & Hrt_dot); try done.
  destruct (SplitextFacts.dotted_tail_shape e "s" "a" "v" He)
    as (re & -> & Hre_sep & Hre_dot); try done.
  assert (PosixPath.splitext
            (stem +:+ String PosixPath.extsep rt +:+ String PosixPath.extsep re)
          = (stem +:+ String PosixPath.extsep rt, String PosixPath.extsep re))
    as Hsplit.
  { rewrite <- append_assoc. apply SplitextFacts.splitext_app; try done.
    - rewrite SplitextFacts.all_chars_app, Hsep. simpl. by rewrite Hrt_sep.
    - by rewrite SplitextFacts.all_chars_app, Hdots. }
  assert (true_basename_of (stem +:+ String PosixPath.extsep rt)
                           (String PosixPath.extsep re) = stem) as Hbase.
  { unfold true_basename_of. rewrite He, SplitextFacts.lower_app, Htag.
    rewrite SplitextFacts.endswith_app. cbn [String.eqb andb].
    change (String.eqb ".sav" ".sav" && true) with true. cbv iota.
    by rewrite SplitextFacts.splitext_app. }
  split; [done|]. split; [done|].
  intros extensions Hlisted. unfold scan_name.
  rewrite SplitextFacts.startswith_metadata_app by done.
  rewrite Hsplit, Hlisted, andb_false_r, Hbase, He. done.
Qed.

(** ** Worked examples, witnesses and counterexamples *)

Example splitext_game : PosixPath.splitext "game.gba.sav" = ("game.gba", ".sav").
Proof. reflexivity. Qed.

Example splitext_hidden : PosixPath.splitext ".gba" = (".gba", "").
Proof. reflexivity. Qed.

Example splitext_dir : PosixPath.splitext "a.b/c" = ("a.b/c", "").
Proof. reflexivity. Qed.

Example dirname_ex : PosixPath.dirname "/home/deck/x.srm" = "/home/deck".
Proof. reflexivity. Qed.

Example dirname_root : PosixPath.dirname "//x" = "//".
Proof. reflexivity. Qed.

Example basename_ex : PosixPath.basename "/home/deck/x.srm" = "x.srm".
Proof. reflexivity. Qed.

Example sd_card_saves_path :
  SD_CARD_SAVES_PATH = "/run/media/deck/MINUI/Saves/GBA".
Proof. reflexivity. Qed.

Example lower_ex : PyStr.lower "GAME.Gba.SAV" = "game.gba.sav".
Proof. reflexivity. Qed.

Example strip_ex : PyStr.strip "  bad header " = "bad header".
Proof. reflexivity. Qed.

Example both_conventions_one_key :
  scan_name (Some [".sav"]) "my_game.gba.sav" = Some ("my_game", ".sav")
  ∧ scan_name (Some [".srm"]) "my_game.srm" = Some ("my_game", ".srm")
  ∧ scan_name (Some [".sav"]) "GAME.GBA.SAV"
    = scan_name (Some [".sav"]) "game.gba.sav".
Proof. repeat split; reflexivity. Qed.

Lemma compare_conflict_iff_witness :
  ({[ "mario" := mario_sd ]} : gmap string FileRecord) !! "mario" = Some mario_sd
  ∧ ({[ "mario" := mario_local ]} : gmap string FileRecord) !! "mario"
    = Some mario_local
  ∧ (mkConflict "mario" mario_sd mario_local
       ∈ conflicts (compare_folders {[ "mario" := mario_sd ]}
                                    {[ "mario" := mario_local ]})
     ↔ mtimes_differ (mtime mario_sd) (mtime mario_local) = true
       ∨ ext mario_sd ≠ ext mario_local).
Proof.
  split; [reflexivity|]. split; [reflexivity|].
  apply (compare_conflict_iff {[ "mario" := mario_sd ]}
           {[ "mario" := mario_local ]} "mario" mario_sd mario_local);
    reflexivity.
Defined.

(** C2, as stated, fails: the half-second pair with extensions [.sav] and
    [.srm] is within the tolerance and is still reported as a conflict. *)
Lemma mario_half_second_is_conflict :
  mtimes_differ (mtime mario_sd) (mtime mario_local) = false
  ∧ conflicts (compare_folders {[ "mario" := mario_sd ]}
                               {[ "mario" := mario_local ]})
    = [ {| basename := "mario"; sd := mario_sd; local := mario_local |} ].
Proof. split; vm_compute; reflexivity. Qed.

(** C3, as stated, fails: a conflict whose times differ by half a second,
    with [.sav] on the card and [.srm] locally, is converted by the
    SD-to-Local director as soon as the card's file is the newer one. *)
Lemma near_tie_is_converted :
  mtimes_close (mtime (sd near_tie)) (mtime (local near_tie)) = true
  ∧ ext (sd near_tie) = ".sav"
  ∧ ext (local near_tie) = ".srm"
  ∧ conflicts (compare_folders {[ "mario" := sd near_tie ]}
                               {[ "mario" := local near_tie ]})
    = [near_tie]
  ∧ sd_to_local_conflict (demo_host never_fails) 0 near_tie
      (demo_machine never_fails [] [])
    = (inr 1,
       demo_machine never_fails [demo_conflict_command near_tie]
         [executing_line (demo_host never_fails) "sav-to-srm.py"
            (path (sd near_tie)) (local_conflict_target near_tie);
          resolved_local_line near_tie]).
Proof. repeat split; vm_compute; reflexivity. Qed.

Lemma newer_sd_conflict_syncs_one_way_witness :
  sync_sd_to_local (demo_host never_fails) ∅ ∅
    {| sd_only := []; local_only := []; conflicts := [clear_win] |}
    (demo_machine never_fails [] [])
  = (inr 1,
     demo_machine never_fails [demo_conflict_command clear_win]
       [banner "Initiating Sync: SD Card to Local Folder";
        executing_line (demo_host never_fails) "sav-to-srm.py"
          (path (sd clear_win)) (local_conflict_target clear_win);
        resolved_local_line clear_win;
        banner "SD to Local Sync Complete. 1 files processed/updated."])
  ∧ sync_local_to_sd (demo_host never_fails) ∅ ∅
      {| sd_only := []; local_only := []; conflicts := [clear_win] |}
      (demo_machine never_fails [] [])
    = (inr 0,
       demo_machine never_fails []
         [banner "Initiating Sync: Local Folder to SD Card";
          "  -> Skipping 'mario': SD version appears newer or preferred. Choose SD to Local sync to update Local if desired.";
          banner "Local to SD Sync Complete. 0 files processed/updated."]).
Proof.
  apply (newer_sd_conflict_syncs_one_way (demo_host never_fails) ∅ ∅ clear_win
           (demo_machine never_fails [] [])
           (demo_machine never_fails [demo_conflict_command clear_win]
              [banner "Initiating Sync: SD Card to Local Folder";
               executing_line (demo_host never_fails) "sav-to-srm.py"
                 (path (sd clear_win)) (local_conflict_target clear_win)])
           (local_conflict_target clear_win));
    reflexivity.
Defined.

Lemma scan_missing_directory_witness :
  isdir (card_fs ["zelda.gba.sav"]) "/mnt/nowhere" = false
  ∧ get_file_info (card_fs ["zelda.gba.sav"]) "/mnt/nowhere" (Some [".sav"])
    = Some (∅, []).
Proof.
  split; [reflexivity|].
  apply (scan_missing_directory (card_fs ["zelda.gba.sav"]) "/mnt/nowhere"
           (Some [".sav"])).
  reflexivity.
Defined.

Lemma metadata_files_never_scanned_witness :
  get_file_info (without_metadata (card_fs ["._zelda.gba.sav"; "zelda.gba.sav"]))
    SD_CARD_SAVES_PATH (Some [".sav"])
  = get_file_info (card_fs ["._zelda.gba.sav"; "zelda.gba.sav"])
      SD_CARD_SAVES_PATH (Some [".sav"])
  ∧ ∃ names filename,
      listdir (card_fs ["._zelda.gba.sav"; "zelda.gba.sav"]) SD_CARD_SAVES_PATH
      = Some names
      ∧ filename ∈ names
      ∧ PyStr.startswith filename "._" = false
      ∧ path zelda_sav = PosixPath.join SD_CARD_SAVES_PATH [filename].
Proof.
  split.
  - apply (proj1 (metadata_files_never_scanned
                    (card_fs ["._zelda.gba.sav"; "zelda.gba.sav"])
                    SD_CARD_SAVES_PATH (Some [".sav"]))).
  - apply (proj2 (metadata_files_never_scanned
                    (card_fs ["._zelda.gba.sav"; "zelda.gba.sav"])
                    SD_CARD_SAVES_PATH (Some [".sav"]))
             {[ "zelda" := zelda_sav ]} [] "zelda" zelda_sav);
      vm_compute; reflexivity.
Defined.

Lemma scanned_ext_lowercase_witness :
  PyStr.lower (ext {| path := "/run/media/deck/MINUI/Saves/GBA/game.gba.sav";
                      mtime := 1700000000%float; ext := ".sav" |})
  = ".sav"
  ∧ get_file_info_step (card_fs ["GAME.GBA.SAV"; "game.gba.sav"])
      SD_CARD_SAVES_PATH (Some [".sav"]) (∅, []) "GAME.GBA.SAV"
    = ({[ "game" := {| path := "/run/media/deck/MINUI/Saves/GBA/GAME.GBA.SAV";
                       mtime := 1700000000%float; ext := ".sav" |} ]}, [])
  ∧ ((get_file_info_step (card_fs ["GAME.GBA.SAV"; "game.gba.sav"])
        SD_CARD_SAVES_PATH (Some [".sav"]) (∅, []) "GAME.GBA.SAV" = (∅, [])
      ∧ get_file_info_step (card_fs ["GAME.GBA.SAV"; "game.gba.sav"])
          SD_CARD_SAVES_PATH (Some [".sav"]) (∅, []) "game.gba.sav" = (∅, []))
     ∨ ∃ key e,
         PyStr.lower e = e
         ∧ get_file_info_step (card_fs ["GAME.GBA.SAV"; "game.gba.sav"])
             SD_CARD_SAVES_PATH (Some [".sav"]) (∅, []) "GAME.GBA.SAV"
           = (<[key := {| path := PosixPath.join SD_CARD_SAVES_PATH
                                    ["GAME.GBA.SAV"];
                          mtime := 1700000000%float; ext := e |}]> ∅, [])
         ∧ get_file_info_step (card_fs ["GAME.GBA.SAV"; "game.gba.sav"])
             SD_CARD_SAVES_PATH (Some [".sav"]) (∅, []) "game.gba.sav"
           = (<[key := {| path := PosixPath.join SD_CARD_SAVES_PATH
                                    ["game.gba.sav"];
                          mtime := 1700000000%float; ext := e |}]> ∅, [])).
Proof.
  split; [|split].
  - apply (proj1 (scanned_ext_lowercase
                    (card_fs ["GAME.GBA.SAV"; "game.gba.sav"])
                    SD_CARD_SAVES_PATH (Some [".sav"]))
             {[ "game" := {| path := "/run/media/deck/MINUI/Saves/GBA/game.gba.sav";
                             mtime := 1700000000%float; ext := ".sav" |} ]}
             [] "game"
             {| path := "/run/media/deck/MINUI/Saves/GBA/game.gba.sav";
                mtime := 1700000000%float; ext := ".sav" |});
      vm_compute; reflexivity.
  - vm_compute; reflexivity.
  - apply (proj2 (scanned_ext_lowercase
                    (card_fs ["GAME.GBA.SAV"; "game.gba.sav"])
                    SD_CARD_SAVES_PATH (Some [".sav"]))
             ∅ [] "GAME.GBA.SAV" "game.gba.sav"
             1700000000%float 1700000000%float);
      reflexivity.
Defined.

(** * Further properties *)

Lemma scan_step_cases fs d exts files_info printed f :
  (get_file_info_step fs d exts (files_info, printed) f
   = (files_info, printed ++ option_list (warning_of fs d exts f))
   ∧ ∀ k r, ¬ stored_as fs d exts f k r)
  ∨ ∃ k r, stored_as fs d exts f k r
           ∧ warning_of fs d exts f = None
           ∧ get_file_info_step fs d exts (files_info, printed) f
             = (<[k := r]> files_info, printed).
Proof.
  rewrite get_file_info_step_scan_name. unfold warning_of, stored_as.
  destruct (scan_name exts f) as [[k e]|] eqn:E.
  - destruct (isfile fs _) eqn:Efile.
    + destruct (getmtime fs _) as [err|m] eqn:Em.
      * left. split; [done|]. intros k' r (_ & Hp & _ & Hm). rewrite Hp in Hm. congruence.
      * right. eexists k, {| path := _; mtime := m; ext := e |}. simpl.
        repeat split; done.
    + left. rewrite app_nil_r. split; [done|].
      intros k' r (_ & Hp & Hf & _). rewrite Hp in Hf. congruence.
  - left. rewrite app_nil_r. split; [done|]. intros k' r (? & _). done.
Qed.

Lemma scan_fold_app fs d exts l1 l2 st :
  fold_left (get_file_info_step fs d exts) (l1 ++ l2) st
  = fold_left (get_file_info_step fs d exts) l2
      (fold_left (get_file_info_step fs d exts) l1 st).
Proof. apply fold_left_app. Qed.

(** The scan of a list of names, as a snapshot and the printed warnings. *)
Lemma scan_fold_sound fs d exts names files_info printed :
  ∀ k r,
    fst (fold_left (get_file_info_step fs d exts) names (files_info, printed)) !! k
    = Some r →
    files_info !! k = Some r
    ∨ ∃ f, f ∈ names ∧ stored_as fs d exts f k r.
Proof.
  revert files_info printed.
  induction names as [|f names IH]; intros files_info printed k r H; [by left|].
  cbn [fold_left] in H.
  destruct (scan_step_cases fs d exts files_info printed f)
    as [[Hstep _]|(k' & r' & Hst & _ & Hstep)]; rewrite Hstep in H.
  - destruct (IH _ _ _ _ H) as [?|(g & ? & ?)]; [by left|].
    right. exists g. split; [by apply list_elem_of_further|done].
  - destruct (IH _ _ _ _ H) as [Hk|(g & ? & ?)].
    + destruct (decide (k' = k)) as [->|Hne].
      * rewrite lookup_insert_eq in Hk. simplify_eq. right. exists f.
        split; [apply list_elem_of_here|done].
      * rewrite lookup_insert_ne in Hk by done. by left.
    + right. exists g. split; [by apply list_elem_of_further|done].
Qed.

Lemma scan_fold_warnings fs d exts names files_info printed :
  snd (fold_left (get_file_info_step fs d exts) names (files_info, printed))
  = printed ++ omap (warning_of fs d exts) names.
Proof.
  revert files_info printed.
  induction names as [|f names IH]; intros files_info printed.
  - by rewrite app_nil_r.
  - cbn [fold_left]. rewrite omap_cons.
    destruct (scan_step_cases fs d exts files_info printed f)
      as [[Hstep _]|(k' & r' & _ & Hw & Hstep)]; rewrite Hstep, IH.
    + destruct (warning_of fs d exts f); simpl; by rewrite <- ?app_assoc, ?app_nil_r.
    + by rewrite Hw.
Qed.

Lemma scan_fold_keeps fs d exts names files_info printed k r :
  files_info !! k = Some r →
  (∀ g e, g ∈ names → scan_name exts g ≠ Some (k, e)) →
  fst (fold_left (get_file_info_step fs d exts) names (files_info, printed)) !! k
  = Some r.
Proof.
  revert files_info printed.
  induction names as [|f names IH]; intros files_info printed Hk Hfree; [done|].
  cbn [fold_left].
  destruct (scan_step_cases fs d exts files_info printed f)
    as [[Hstep _]|(k' & r' & Hst & _ & Hstep)]; rewrite Hstep.
  - apply IH; [done|]. intros g e Hg. apply Hfree. by apply list_elem_of_further.
  - apply IH.
    + rewrite lookup_insert_ne; [done|]. intros ->.
      destruct Hst as (Hs & _). by apply (Hfree f (ext r') (list_elem_of_here _ _)).
    + intros g e Hg. apply Hfree. by apply list_elem_of_further.
Qed.

Lemma get_file_info_origin fs d exts files_info printed k r :
  get_file_info fs d exts = Some (files_info, printed) →
  files_info !! k = Some r →
  ∃ names f, listdir fs d = Some names ∧ f ∈ names ∧ stored_as fs d exts f k r.
Proof.
  unfold get_file_info. intros Hscan Hk.
  destruct (isdir fs d); simpl in Hscan; [|by simplify_eq].
  destruct (listdir fs d) as [names|]; [|done].
  simplify_eq.
  pose proof (scan_fold_sound fs d exts names ∅ [] k r) as H.
  rewrite Hscan in H. destruct (H Hk) as [?|(f & Hf & Hst)]; [done|].
  by exists names, f.
Qed.

(** X1. Every record of a snapshot describes a listed entry: its path is the
    directory joined with a listed name that the scanner accepts, the entry
    is a regular file, and the stored time is the one the file system gives
    for that path. *)
Theorem scanned_record_is_listed_file fs directory_path extensions files_info
    printed k r :
  get_file_info fs directory_path extensions = Some (files_info, printed) →
  files_info !! k = Some r →
  ∃ names filename,
    listdir fs directory_path = Some names
    ∧ filename ∈ names
    ∧ scan_name extensions filename = Some (k, ext r)
    ∧ path r = PosixPath.join directory_path [filename]
    ∧ isfile fs (path r) = true
    ∧ getmtime fs (path r) = inr (mtime r).
Proof.
  intros Hscan Hk.
  destruct (get_file_info_origin _ _ _ _ _ _ _ Hscan Hk)
    as (names & f & Hlist & Hf & Hname & Hpath & Hfile & Hm).
  by exists names, f.
Qed.

Lemma scan_name_facts exts f k e :
  scan_name exts f = Some (k, e) →
  PyStr.startswith f "._" = false
  ∧ PyStr.lower k = k
  ∧ PyStr.lower e = e
  ∧ (truthy exts = true → e ∈ map PyStr.lower (default [] exts)).
Proof.
  unfold scan_name. destruct (PyStr.startswith f "._"); [done|].
  destruct (PosixPath.splitext f) as [n e'].
  destruct (truthy exts && ext_not_listed exts e') eqn:E; [done|].
  intros [= <- <-].
  rewrite !PyStrFacts.lower_idem. repeat split; try done.
  intros Ht. rewrite Ht in E. simpl in E. unfold ext_not_listed in E.
  apply negb_false_iff, bool_decide_eq_true in E. done.
Qed.

(** X2. With a non-empty filter, the extension stored in every record is one
    of the filter's extensions, lower-cased. *)
Theorem scanned_ext_in_filter fs directory_path x xs files_info printed k r :
  get_file_info fs directory_path (Some (x :: xs)) = Some (files_info, printed) →
  files_info !! k = Some r →
  ext r ∈ map PyStr.lower (x :: xs).
Proof.
  intros Hscan Hk.
  destruct (get_file_info_origin _ _ _ _ _ _ _ Hscan Hk)
    as (names & f & _ & _ & Hname & _).
  by apply (scan_name_facts _ _ _ _ Hname).
Qed.

(** X3. Every key of a snapshot is lower-cased. *)
Theorem scanned_keys_lowercase fs directory_path extensions files_info printed
    k r :
  get_file_info fs directory_path extensions = Some (files_info, printed) →
  files_info !! k = Some r →
  PyStr.lower k = k.
Proof.
  intros Hscan Hk.
  destruct (get_file_info_origin _ _ _ _ _ _ _ Hscan Hk)
    as (names & f & _ & _ & Hname & _).
  by apply (scan_name_facts _ _ _ _ Hname).
Qed.

(** X4. When several listed files share a key, the one listed last is the
    one the snapshot keeps: an accepted regular file with a readable time is
    found under its key unless a later name of the listing has the same
    key. *)
Theorem last_listed_file_wins fs directory_path extensions before filename
    after k e m :
  isdir fs directory_path = true →
  listdir fs directory_path = Some (before ++ filename :: after) →
  scan_name extensions filename = Some (k, e) →
  isfile fs (PosixPath.join directory_path [filename]) = true →
  getmtime fs (PosixPath.join directory_path [filename]) = inr m →
  (∀ g e', g ∈ after → scan_name extensions g ≠ Some (k, e')) →
  ∃ files_info printed,
    get_file_info fs directory_path extensions = Some (files_info, printed)
    ∧ files_info !! k
      = Some {| path := PosixPath.join directory_path [filename];
                mtime := m; ext := e |}.
Proof.
  intros Hdir Hlist Hname Hfile Hm Hafter.
  unfold get_file_info. rewrite Hdir, Hlist. cbn [negb].
  eexists _, _. split; [by rewrite <- surjective_pairing|].
  rewrite scan_fold_app. cbn [fold_left].
  destruct (fold_left _ before _) as [fi pr].
  rewrite get_file_info_step_scan_name, Hname, Hfile, Hm.
  apply scan_fold_keeps; [by rewrite lookup_insert_eq|done].
Qed.

(** X5. The scanner prints one warning for each accepted regular file whose
    time cannot be read, in listing order, and nothing else. *)
Theorem scan_warnings fs directory_path extensions names files_info printed :
  listdir fs directory_path = Some names →
  get_file_info fs directory_path extensions = Some (files_info, printed) →
  printed
  = if isdir fs directory_path
    then omap (warning_of fs directory_path extensions) names
    else [].
Proof.
  unfold get_file_info. intros Hlist Hscan.
  destruct (isdir fs directory_path); simpl in *; [|by simplify_eq].
  rewrite Hlist in Hscan. simplify_eq.
  pose proof (scan_fold_warnings fs directory_path extensions names ∅ []) as H.
  by rewrite Hscan in H.
Qed.

Section KeyLists.
Context {Y : Type} (f : string → option Y).

Lemma length_omap_filter (X : gset string) ks :
  (∀ k, k ∈ ks → (is_Some (f k) ↔ k ∈ X)) →
  length (omap f ks) = length (filter (λ k, k ∈ X) ks).
Proof.
  induction ks as [|k ks IH]; intros H; [done|].
  rewrite omap_cons, filter_cons.
  assert (is_Some (f k) ↔ k ∈ X) as Hk by (apply H, list_elem_of_here).
  assert (length (omap f ks) = length (filter (λ k, k ∈ X) ks)) as IH'
    by (apply IH; intros k' Hk'; by apply H, list_elem_of_further).
  destruct (f k) as [y|]; destruct (decide (k ∈ X)) as [Hin|Hout]; simpl;
    rewrite ?IH'; try done.
  - destruct Hout. by apply Hk.
  - apply Hk in Hin. by destruct Hin.
Qed.

Lemma length_omap_keys (X S : gset string) ks :
  NoDup ks → (∀ k, k ∈ ks ↔ k ∈ S) → X ⊆ S →
  (∀ k, k ∈ S → (is_Some (f k) ↔ k ∈ X)) →
  length (omap f ks) = size X.
Proof.
  intros Hnd Hks Hsub Hf.
  rewrite (length_omap_filter X) by (intros k Hk; by apply Hf, Hks).
  unfold size, set_size. simpl. apply Permutation_length.
  apply NoDup_Permutation; [by apply NoDup_filter|apply NoDup_elements|].
  intros k. rewrite list_elem_of_filter, elem_of_elements, Hks.
  split; [by intros [? ?]|]. intros Hk. split; [done|]. by apply Hsub.
Qed.

Lemma omap_keys_sorted (g : Y → string) ks :
  (∀ k y, f k = Some y → g y = k) →
  StronglySorted String.le ks →
  StronglySorted String.le (map g (omap f ks)).
Proof.
  intros Hg Hs. induction Hs as [|k ks Hs IH Hall]; [constructor|].
  rewrite omap_cons. destruct (f k) as [y|] eqn:E; [|done].
  simpl. rewrite (Hg _ _ E). constructor; [done|].
  rewrite Forall_forall in Hall |- *. intros x Hx.
  apply list_elem_of_fmap in Hx as (y' & -> & Hy').
  apply list_elem_of_omap in Hy' as (k' & Hk' & Hf').
  rewrite (Hg _ _ Hf'). by apply Hall.
Qed.

Lemma omap_keys_NoDup (g : Y → string) ks :
  (∀ k y, f k = Some y → g y = k) →
  NoDup ks → NoDup (map g (omap f ks)).
Proof.
  intros Hg Hnd. induction Hnd as [|k ks Hnotin Hnd IH]; [constructor|].
  rewrite omap_cons. destruct (f k) as [y|] eqn:E; [|done].
  simpl. rewrite (Hg _ _ E). constructor; [|done].
  intros Hx. apply list_elem_of_fmap in Hx as (y' & Hy & Hy').
  apply list_elem_of_omap in Hy' as (k' & Hk' & Hf').
  rewrite (Hg _ _ Hf') in Hy. by subst.
Qed.

End KeyLists.

Lemma all_basenames_dom (A B : gmap string FileRecord) k :
  k ∈ all_basenames A B ↔ k ∈ dom A ∪ dom B.
Proof.
  unfold all_basenames. by rewrite merge_sort_Permutation, elem_of_elements.
Qed.

(** X6. The conflicts are listed in strictly increasing order of their
    keys: the keys are sorted for the order on strings and none occurs
    twice. *)
Theorem conflicts_sorted_by_key (A B : gmap string FileRecord) :
  StronglySorted String.le (map basename (conflicts (compare_folders A B)))
  ∧ NoDup (map basename (conflicts (compare_folders A B))).
Proof.
  rewrite compare_folders_lists. cbn [conflicts].
  assert (∀ k c, conflict_of A B k = Some c → basename c = k) as Hg.
  { intros k c. unfold conflict_of.
    destruct (A !! k), (B !! k); try done.
    destruct (_ || _); [|done]. by intros [= <-]. }
  split.
  - apply omap_keys_sorted; [done|apply all_basenames_sorted].
  - apply omap_keys_NoDup; [done|apply all_basenames_NoDup].
Qed.

Lemma sd_only_of_is_Some (A B : gmap string FileRecord) k :
  is_Some (sd_only_of A B k) ↔ k ∈ dom A ∖ dom B.
Proof.
  unfold sd_only_of. rewrite elem_of_difference, !elem_of_dom.
  destruct (A !! k), (B !! k); rewrite !is_Some_alt; simpl; tauto.
Qed.

Lemma local_only_of_is_Some (A B : gmap string FileRecord) k :
  is_Some (local_only_of A B k) ↔ k ∈ dom B ∖ dom A.
Proof.
  unfold local_only_of. rewrite elem_of_difference, !elem_of_dom.
  destruct (A !! k), (B !! k); rewrite !is_Some_alt; simpl; tauto.
Qed.

Lemma conflict_of_is_Some (A B : gmap string FileRecord) k :
  is_Some (conflict_of A B k) → k ∈ dom A ∩ dom B.
Proof.
  unfold conflict_of. rewrite elem_of_intersection, !elem_of_dom.
  destruct (A !! k), (B !! k); rewrite !is_Some_alt; simpl; tauto.
Qed.

Lemma length_sd_only (A B : gmap string FileRecord) :
  length (omap (sd_only_of A B) (all_basenames A B)) = size (dom A ∖ dom B).
Proof.
  apply (length_omap_keys _ _ (dom A ∪ dom B));
    [apply all_basenames_NoDup|apply all_basenames_dom| |].
  - intros k Hk. apply elem_of_difference in Hk as [Hk _].
    apply elem_of_union. by left.
  - intros k _. apply sd_only_of_is_Some.
Qed.

Lemma length_local_only (A B : gmap string FileRecord) :
  length (omap (local_only_of A B) (all_basenames A B)) = size (dom B ∖ dom A).
Proof.
  apply (length_omap_keys _ _ (dom A ∪ dom B));
    [apply all_basenames_NoDup|apply all_basenames_dom| |].
  - intros k Hk. apply elem_of_difference in Hk as [Hk _].
    apply elem_of_union. by right.
  - intros k _. apply local_only_of_is_Some.
Qed.

(** X7. The three lists account for the keys without loss or repetition:
    [sd_only] has one record per key that only the first snapshot holds,
    [local_only] one per key that only the second holds, and [conflicts] at
    most one entry per key that both hold. *)
Theorem difference_counts (A B : gmap string FileRecord) :
  length (sd_only (compare_folders A B)) = size (dom A ∖ dom B)
  ∧ length (local_only (compare_folders A B)) = size (dom B ∖ dom A)
  ∧ length (conflicts (compare_folders A B)) ≤ size (dom A ∩ dom B).
Proof.
  rewrite compare_folders_lists. cbn [sd_only local_only conflicts].
  split; [|split].
  - apply length_sd_only.
  - apply length_local_only.
  - rewrite (length_omap_filter _ (filter (λ k, is_Some (conflict_of A B k))
                                           (dom A ∩ dom B))).
    + unfold size, set_size. simpl.
      apply submseteq_length, NoDup_submseteq.
      { apply NoDup_filter, all_basenames_NoDup. }
      intros k. rewrite list_elem_of_filter, elem_of_filter, elem_of_elements.
      tauto.
    + intros k _. rewrite elem_of_filter. split; [|tauto].
      intros Hk. split; [done|]. by apply conflict_of_is_Some.
Qed.

Lemma SFsub_self x :
  SFabs (SFsub prec emax x x) = S754_nan
  ∨ SFabs (SFsub prec emax x x) = S754_zero false.
Proof.
  destruct x as [s|s| |s m e].
  - right. by destruct s.
  - left. by destruct s.
  - by left.
  - right. unfold SFsub. cbv zeta. rewrite Z.min_id. unfold shl_align.
    by rewrite Z.sub_diag.
Qed.

Lemma mtimes_differ_self a : mtimes_differ a a = false.
Proof.
  unfold mtimes_differ. rewrite ltb_spec, abs_spec, sub_spec. unfold SF64sub.
  destruct (SFsub_self (Prim2SF a)) as [-> | ->]; by vm_compute.
Qed.

(** X8. A snapshot compared with itself shows no difference, whatever its
    times are, not-a-number and the infinities included. *)
Theorem compare_with_itself (A : gmap string FileRecord) :
  compare_folders A A = {| sd_only := []; local_only := []; conflicts := [] |}.
Proof.
  rewrite compare_folders_lists.
  assert (∀ ks, omap (sd_only_of A A) ks = []
                ∧ omap (local_only_of A A) ks = []
                ∧ omap (conflict_of A A) ks = []) as H.
  { induction ks as [|k ks (IH1 & IH2 & IH3)]; [done|].
    rewrite !omap_cons, IH1, IH2, IH3.
    unfold sd_only_of, local_only_of, conflict_of.
    destruct (A !! k) as [r|]; [|done].
    by rewrite mtimes_differ_self, String.eqb_refl. }
  by destruct (H (all_basenames A A)) as (-> & -> & ->).
Qed.

(** X9. Against an empty local snapshot, every record of the card is
    reported as present only on the card, once, and nothing else is
    reported; and the other way round against an empty card. *)
Theorem compare_with_empty (A : gmap string FileRecord) :
  (local_only (compare_folders A ∅) = []
   ∧ conflicts (compare_folders A ∅) = []
   ∧ length (sd_only (compare_folders A ∅)) = size A
   ∧ ∀ r, r ∈ sd_only (compare_folders A ∅) ↔ ∃ k, A !! k = Some r)
  ∧ (sd_only (compare_folders ∅ A) = []
     ∧ conflicts (compare_folders ∅ A) = []
     ∧ length (local_only (compare_folders ∅ A)) = size A
     ∧ ∀ r, r ∈ local_only (compare_folders ∅ A) ↔ ∃ k, A !! k = Some r).
Proof.
  assert (∀ ks, omap (local_only_of A ∅) ks = []
                ∧ omap (conflict_of A ∅) ks = []
                ∧ omap (sd_only_of ∅ A) ks = []
                ∧ omap (conflict_of ∅ A) ks = []) as Hnone.
  { induction ks as [|k ks (IH1 & IH2 & IH3 & IH4)]; [done|].
    rewrite !omap_cons, IH1, IH2, IH3, IH4.
    unfold sd_only_of, local_only_of, conflict_of. rewrite lookup_empty.
    by destruct (A !! k). }
  pose proof (length_sd_only A ∅) as Hsd.
  pose proof (length_local_only ∅ A) as Hlocal.
  rewrite dom_empty_L, difference_empty_L, size_dom in Hsd, Hlocal.
  rewrite !compare_folders_lists. cbn [sd_only local_only conflicts].
  split.
  - destruct (Hnone (all_basenames A ∅)) as (-> & -> & _ & _).
    repeat split; try done.
    + intros Hr. apply list_elem_of_omap in Hr as (k & _ & Hk).
      exists k. unfold sd_only_of in Hk. rewrite lookup_empty in Hk.
      by destruct (A !! k); simplify_eq.
    + intros [k Hk]. apply list_elem_of_omap. exists k. split.
      * apply elem_of_all_basenames. left. by rewrite Hk.
      * unfold sd_only_of. by rewrite Hk, lookup_empty.
  - destruct (Hnone (all_basenames ∅ A)) as (_ & _ & -> & ->).
    repeat split; try done.
    + intros Hr. apply list_elem_of_omap in Hr as (k & _ & Hk).
      exists k. unfold local_only_of in Hk. rewrite lookup_empty in Hk.
      by destruct (A !! k); simplify_eq.
    + intros [k Hk]. apply list_elem_of_omap. exists k. split.
      * apply elem_of_all_basenames. right. by rewrite Hk.
      * unfold local_only_of. by rewrite Hk, lookup_empty.
Qed.

(** X10. As [main] scans the two folders, the card for [.sav] and the local
    folder for [.srm], every game found on both sides is reported as a
    conflict, however close the two times are: the stored extensions always
    differ. *)
Theorem scanned_pairs_always_conflict fs_sd dir_sd fs_local dir_local
    sd_info printed_sd local_info printed_local k sd_file local_file :
  get_file_info fs_sd dir_sd (Some [".sav"]) = Some (sd_info, printed_sd) →
  get_file_info fs_local dir_local (Some [".srm"])
  = Some (local_info, printed_local) →
  sd_info !! k = Some sd_file →
  local_info !! k = Some local_file →
  {| basename := k; sd := sd_file; local := local_file |}
  ∈ conflicts (compare_folders sd_info local_info).
Proof.
  intros Hsd Hlocal Hk1 Hk2.
  destruct (get_file_info_origin _ _ _ _ _ _ _ Hsd Hk1)
    as (? & ? & _ & _ & Hn1 & _).
  destruct (get_file_info_origin _ _ _ _ _ _ _ Hlocal Hk2)
    as (? & ? & _ & _ & Hn2 & _).
  apply scan_name_facts in Hn1 as (_ & _ & _ & H1).
  apply scan_name_facts in Hn2 as (_ & _ & _ & H2).
  specialize (H1 eq_refl). specialize (H2 eq_refl).
  apply list_elem_of_singleton in H1, H2.
  rewrite compare_folders_lists. cbn [conflicts].
  apply list_elem_of_omap. exists k. split.
  - apply elem_of_all_basenames. left. by rewrite Hk1.
  - unfold conflict_of. rewrite Hk1, Hk2, H1, H2.
    by rewrite orb_true_r.
Qed.

Section InvokerFacts.
Variable h : Host.

Lemma ensure_output_dir_printed output_path (st st1 : Machine h) r :
  ensure_output_dir h output_path st = (r, st1) → printed st1 = printed st.
Proof.
  unfold ensure_output_dir.
  destruct (negb (String.eqb (PosixPath.dirname output_path) "")).
  - run_m.
    destruct (path_exists h (PosixPath.dirname output_path) (world st)); run_m.
    + by intros [= _ <-].
    + destruct (makedirs h (PosixPath.dirname output_path) (world st))
        as [r' w].
      by intros [= _ <-].
  - run_m. by intros [= _ <-].
Qed.

(** The ways [_run_conversion_script] can end, read off its code. *)
Lemma run_cases script_name input_path output_path (st : Machine h) :
  (* the script is missing or is not a regular file *)
  (path_exists h (script_path h script_name) (world st)
   && path_isfile h (script_path h script_name) (world st) = false
   ∧ ∃ msg, _run_conversion_script h script_name input_path output_path st
            = (inl (FileNotFoundError msg), st))
  ∨ (path_exists h (script_path h script_name) (world st) = true
     ∧ path_isfile h (script_path h script_name) (world st) = true
     ∧ ((* the output directory cannot be made *)
        (∃ e st1, ensure_output_dir h output_path st = (inl e, st1)
                  ∧ _run_conversion_script h script_name input_path output_path st
                    = (inl e, st1))
        ∨ ∃ st1, ensure_output_dir h output_path st = (inr tt, st1)
          ∧ ((* the helper cannot be started *)
             (∃ e w2,
                subprocess_run h
                  (command_of h (script_path h script_name) input_path output_path)
                  (EXTERNAL_CONVERSION_SCRIPTS_DIR h) (world st1) = (inl e, w2)
                ∧ _run_conversion_script h script_name input_path output_path st
                  = (inl (IOError ("Failed to run conversion command: "
                                   +:+ str e)),
                     mkMachine w2
                       (printed st1
                        ++ [executing_line h script_name input_path
                                           output_path])))
             ∨ ∃ result w2,
                 subprocess_run h
                   (command_of h (script_path h script_name) input_path
                               output_path)
                   (EXTERNAL_CONVERSION_SCRIPTS_DIR h) (world st1)
                 = (inr result, w2)
                 ∧ _run_conversion_script h script_name input_path output_path st
                   = (if (returncode result =? 0)%Z then inr output_path
                      else inl (IOError
                                  ("Failed to run conversion command: "
                                   +:+ error_message script_name input_path
                                         output_path result)),
                      mkMachine w2
                        (printed st1
                         ++ [executing_line h script_name input_path
                                            output_path]))))).
Proof.
  unfold _run_conversion_script, executing_line, script_path. run_m.
  destruct (path_exists h _ (world st)) eqn:Hex; run_m.
  2:{ left. split; [done|]. eauto. }
  destruct (path_isfile h _ (world st)) eqn:Hfile; run_m.
  2:{ left. split; [done|]. eauto. }
  right. split; [done|]. split; [done|].
  destruct (ensure_output_dir h output_path st) as [[e|[]] st1] eqn:Hdir; run_m.
  { left. eauto. }
  right. exists st1. split; [done|].
  destruct (subprocess_run h _ _ (world st1)) as [[e|result] w2] eqn:Hrun; run_m.
  { left. eauto. }
  right. exists result, w2. split; [done|].
  by destruct (returncode result =? 0)%Z.
Qed.

Lemma run_printed_grows script_name input_path output_path (st st' : Machine h) r :
  _run_conversion_script h script_name input_path output_path st = (r, st') →
  printed st `prefix_of` printed st'.
Proof.
  intros H.
  destruct (run_cases script_name input_path output_path st)
    as [(_ & msg & Hr)|(_ & _ & [(e & st1 & Hd & Hr)|(st1 & Hd & [(e & w2 & _ & Hr)|(res & w2 & _ & Hr)])])];
    rewrite Hr in H; simplify_eq; try done.
  - by rewrite (ensure_output_dir_printed _ _ _ _ Hd).
  - cbn [printed]. rewrite (ensure_output_dir_printed _ _ _ _ Hd).
    by apply prefix_app_r.
  - cbn [printed]. rewrite (ensure_output_dir_printed _ _ _ _ Hd).
    by apply prefix_app_r.
Qed.

End InvokerFacts.

(** X11. When the helper script is missing, or is not a regular file, the
    invoker raises [FileNotFoundError] at once: no directory is made, the
    helper is not started and nothing is printed. *)
Theorem missing_script_stops_early (h : Host) script_name input_path output_path
    (st : Machine h) :
  path_exists h (script_path h script_name) (world st)
  && path_isfile h (script_path h script_name) (world st) = false →
  ∃ msg,
    _run_conversion_script h script_name input_path output_path st
    = (inl (FileNotFoundError msg), st)
    ∧ carries msg (script_path h script_name).
Proof.
  intros Hbad. unfold _run_conversion_script. fold (script_path h script_name).
  run_m. destruct (path_exists h _ (world st)); run_m.
  - simpl in Hbad. rewrite Hbad. run_m. eexists. split; [done|].
    apply carries_end.
  - eexists. split; [done|]. apply carries_end.
Qed.

(** X12. When the output directory cannot be made, the error of [makedirs]
    leaves the invoker as it is, not wrapped, and the helper is not
    started. *)
Theorem makedirs_failure_propagates (h : Host) script_name input_path
    output_path (st st1 : Machine h) e :
  path_exists h (script_path h script_name) (world st) = true →
  path_isfile h (script_path h script_name) (world st) = true →
  ensure_output_dir h output_path st = (inl e, st1) →
  _run_conversion_script h script_name input_path output_path st = (inl e, st1)
  ∧ printed st1 = printed st.
Proof.
  intros Hex Hfile Hdir. split; [|by eapply ensure_output_dir_printed].
  unfold _run_conversion_script. fold (script_path h script_name). run_m.
  rewrite Hex. run_m. rewrite Hfile. run_m. by rewrite Hdir.
Qed.

(** X13. When the helper cannot be started, whatever [subprocess.run]
    raises comes out as an [IOError] whose text is the fixed prefix followed
    by the text of the original error. *)
Theorem launch_failure_is_wrapped (h : Host) script_name input_path output_path
    (st st1 : Machine h) e w2 :
  path_exists h (script_path h script_name) (world st) = true →
  path_isfile h (script_path h script_name) (world st) = true →
  ensure_output_dir h output_path st = (inr tt, st1) →
  subprocess_run h
    (command_of h (script_path h script_name) input_path output_path)
    (EXTERNAL_CONVERSION_SCRIPTS_DIR h) (world st1) = (inl e, w2) →
  _run_conversion_script h script_name input_path output_path st
  = (inl (IOError ("Failed to run conversion command: " +:+ str e)),
     mkMachine w2
       (printed st1 ++ [executing_line h script_name input_path output_path])).
Proof.
  intros Hex Hfile Hdir Hrun.
  unfold _run_conversion_script, executing_line.
  fold (script_path h script_name). run_m.
  rewrite Hex. run_m. rewrite Hfile. run_m. rewrite Hdir. run_m.
  by rewrite Hrun.
Qed.

(** X14. The invoker returns normally only after the helper has run and
    exited with status 0, and what it returns is the output path; it has then
    printed exactly one line, the command. *)
Theorem success_means_exit_zero (h : Host) script_name input_path output_path
    (st st' : Machine h) out :
  _run_conversion_script h script_name input_path output_path st
  = (inr out, st') →
  out = output_path
  ∧ ∃ st1 result,
      ensure_output_dir h output_path st = (inr tt, st1)
      ∧ subprocess_run h
          (command_of h (script_path h script_name) input_path output_path)
          (EXTERNAL_CONVERSION_SCRIPTS_DIR h) (world st1)
        = (inr result, world st')
      ∧ returncode result = 0%Z
      ∧ printed st'
        = printed st ++ [executing_line h script_name input_path output_path].
Proof.
  intros H.
  destruct (run_cases h script_name input_path output_path st)
    as [(_ & msg & Hr)|(_ & _ & [(e & st1 & Hd & Hr)|(st1 & Hd & [(e & w2 & _ & Hr)|(res & w2 & Hrun & Hr)])])];
    rewrite Hr in H; try done.
  destruct (returncode res =? 0)%Z eqn:Hrc; [|done].
  simplify_eq. split; [done|]. exists st1, res.
  rewrite <- (ensure_output_dir_printed _ _ _ _ _ Hd).
  repeat split; try done. by apply Z.eqb_eq.
Qed.

(** X15. When the helper exits with status 0 the invoker returns the output
    path. *)
Theorem exit_zero_returns_output_path (h : Host) script_name input_path
    output_path (st st1 : Machine h) result w2 :
  path_exists h (script_path h script_name) (world st) = true →
  path_isfile h (script_path h script_name) (world st) = true →
  ensure_output_dir h output_path st = (inr tt, st1) →
  subprocess_run h
    (command_of h (script_path h script_name) input_path output_path)
    (EXTERNAL_CONVERSION_SCRIPTS_DIR h) (world st1) = (inr result, w2) →
  returncode result = 0%Z →
  _run_conversion_script h script_name input_path output_path st
  = (inr output_path,
     mkMachine w2
       (printed st1 ++ [executing_line h script_name input_path output_path])).
Proof.
  intros Hex Hfile Hdir Hrun Hrc.
  unfold _run_conversion_script, executing_line.
  fold (script_path h script_name). run_m.
  rewrite Hex. run_m. rewrite Hfile. run_m. rewrite Hdir. run_m.
  rewrite Hrun. run_m. by rewrite Hrc.
Qed.

Section LoopFacts.
Variable h : Host.

Lemma say_prefix (st : Machine h) line l :
  l `prefix_of` printed st → l `prefix_of` printed (say st line).
Proof. intros H. cbn [say printed]. by apply prefix_app_r. Qed.

Lemma for_each_contained {A} (body : nat → A → M h nat) items n st :
  contained body →
  ∃ n' st',
    for_each items body n st = (inr n', st')
    ∧ n ≤ n' ≤ n + length items
    ∧ printed st `prefix_of` printed st'.
Proof.
  intros Hbody. revert n st.
  induction items as [|x items IH]; intros n st.
  - exists n, st. cbn [for_each ret length]. split; [done|]. split; [lia|done].
  - rewrite for_each_cons.
    destruct (Hbody n x st) as (n1 & st1 & -> & Hn1 & Hp1).
    destruct (IH n1 st1) as (n2 & st2 & -> & Hn2 & Hp2).
    exists n2, st2. split; [done|]. cbn [length]. split; [lia|].
    by etrans.
Qed.

Lemma try_convert_contained {A} script (input target : A → string)
    (ok : A → string) (bad : A → Exception → string) :
  contained (λ n x,
    try_except
      (let* _ := _run_conversion_script h script (input x) (target x) in
       let* _ := print (ok x) in
       ret (n + 1))
      (λ e, let* _ := print (bad x e) in ret n)).
Proof.
  intros n x st. run_m.
  destruct (_run_conversion_script h script (input x) (target x) st)
    as [[e|out] st'] eqn:Hrun;
    apply run_printed_grows in Hrun.
  - eexists n, _. split; [done|]. split; [lia|]. by apply prefix_app_r.
  - eexists (n + 1), _. split; [done|]. split; [lia|]. by apply prefix_app_r.
Qed.

Lemma sd_to_local_only_contained : contained (sd_to_local_only h).
Proof.
  apply (try_convert_contained "sav-to-srm.py" path local_target
           copied_local_line error_copy_local_line).
Qed.

Lemma local_to_sd_only_contained : contained (local_to_sd_only h).
Proof.
  apply (try_convert_contained "srm-to-sav.py" path sd_target
           copied_sd_line error_copy_sd_line).
Qed.

Lemma sd_to_local_conflict_contained : contained (sd_to_local_conflict h).
Proof.
  intros n c st. rewrite sd_to_local_conflict_spec.
  destruct (PrimFloat.ltb _ _).
  - destruct (_run_conversion_script h _ _ _ st) as [[e|out] st'] eqn:Hrun;
      apply run_printed_grows in Hrun.
    + eexists n, _. split; [done|]. split; [lia|]. by apply say_prefix.
    + eexists (n + 1), _. split; [done|]. split; [lia|]. by apply say_prefix.
  - eexists n, _. split; [done|]. split; [lia|]. by apply say_prefix.
Qed.

Lemma local_to_sd_conflict_contained : contained (local_to_sd_conflict h).
Proof.
  intros n c st. rewrite local_to_sd_conflict_spec.
  destruct (PrimFloat.ltb _ _).
  - destruct (_run_conversion_script h _ _ _ st) as [[e|out] st'] eqn:Hrun;
      apply run_printed_grows in Hrun.
    + eexists n, _. split; [done|]. split; [lia|]. by apply say_prefix.
    + eexists (n + 1), _. split; [done|]. split; [lia|]. by apply say_prefix.
  - eexists n, _. split; [done|]. split; [lia|]. by apply say_prefix.
Qed.

Lemma sync_sd_to_local_contained sd_info local_info differences st :
  ∃ n st',
    sync_sd_to_local h sd_info local_info differences st = (inr n, st')
    ∧ n ≤ length (sd_only differences) + length (conflicts differences)
    ∧ printed st `prefix_of` printed st'.
Proof.
  unfold sync_sd_to_local, display_message. run_m.
  destruct (for_each_contained _ (sd_only differences) 0
              (mkMachine (world st)
                 (printed st ++ [banner "Initiating Sync: SD Card to Local Folder"]))
              sd_to_local_only_contained)
    as (n1 & st1 & H1 & Hn1 & Hp1).
  unfold banner in H1. rewrite H1.
  destruct (for_each_contained _ (conflicts differences) n1 st1
              sd_to_local_conflict_contained)
    as (n2 & st2 & -> & Hn2 & Hp2).
  eexists n2, _. split; [done|]. split; [lia|]. cbn [printed] in *.
  apply prefix_app_r. etrans; [|done]. etrans; [|done]. by apply prefix_app_r.
Qed.

Lemma sync_local_to_sd_contained sd_info local_info differences st :
  ∃ n st',
    sync_local_to_sd h sd_info local_info differences st = (inr n, st')
    ∧ n ≤ length (local_only differences) + length (conflicts differences)
    ∧ printed st `prefix_of` printed st'.
Proof.
  unfold sync_local_to_sd, display_message. run_m.
  destruct (for_each_contained _ (local_only differences) 0
              (mkMachine (world st)
                 (printed st ++ [banner "Initiating Sync: Local Folder to SD Card"]))
              local_to_sd_only_contained)
    as (n1 & st1 & H1 & Hn1 & Hp1).
  unfold banner in H1. rewrite H1.
  destruct (for_each_contained _ (conflicts differences) n1 st1
              local_to_sd_conflict_contained)
    as (n2 & st2 & -> & Hn2 & Hp2).
  eexists n2, _. split; [done|]. split; [lia|]. cbn [printed] in *.
  apply prefix_app_r. etrans; [|done]. etrans; [|done]. by apply prefix_app_r.
Qed.

End LoopFacts.


Section QuietRuns.
Variable h : Host.

Lemma skip_all_local n cs (st : Machine h) :
  Forall (λ c, PrimFloat.ltb (mtime (local c)) (mtime (sd c)) = false) cs →
  for_each cs (sd_to_local_conflict h) n st
  = (inr n, mkMachine (world st) (printed st ++ map skip_local_line cs)).
Proof.
  intros Hall. revert st.
  induction Hall as [|c cs Hc Hall IH]; intros st.
  - cbn [for_each ret map]. rewrite app_nil_r. by destruct st.
  - rewrite for_each_cons, sd_to_local_conflict_spec, Hc, IH.
    cbn [say world printed map]. by rewrite <- app_assoc.
Qed.

Lemma skip_all_sd n cs (st : Machine h) :
  Forall (λ c, PrimFloat.ltb (mtime (sd c)) (mtime (local c)) = false) cs →
  for_each cs (local_to_sd_conflict h) n st
  = (inr n, mkMachine (world st) (printed st ++ map skip_sd_line cs)).
Proof.
  intros Hall. revert st.
  induction Hall as [|c cs Hc Hall IH]; intros st.
  - cbn [for_each ret map]. rewrite app_nil_r. by destruct st.
  - rewrite for_each_cons, local_to_sd_conflict_spec, Hc, IH.
    cbn [say world printed map]. by rewrite <- app_assoc.
Qed.

End QuietRuns.

(** X17. A sync towards the local folder with no file that is only on the
    card and no conflict whose card side is strictly newer runs nothing: the
    world is left as it was, zero files are reported, and one [Skipping]
    line is printed per conflict between the two banners. The same holds
    towards the card. *)
Theorem nothing_newer_nothing_run (h : Host) sd_info local_info differences
    (st : Machine h) :
  (sd_only differences = [] →
   Forall (λ c, PrimFloat.ltb (mtime (local c)) (mtime (sd c)) = false)
          (conflicts differences) →
   sync_sd_to_local h sd_info local_info differences st
   = (inr 0,
      mkMachine (world st)
        (printed st
         ++ banner "Initiating Sync: SD Card to Local Folder"
            :: map skip_local_line (conflicts differences)
         ++ [banner "SD to Local Sync Complete. 0 files processed/updated."])))
  ∧ (local_only differences = [] →
     Forall (λ c, PrimFloat.ltb (mtime (sd c)) (mtime (local c)) = false)
            (conflicts differences) →
     sync_local_to_sd h sd_info local_info differences st
     = (inr 0,
        mkMachine (world st)
          (printed st
           ++ banner "Initiating Sync: Local Folder to SD Card"
              :: map skip_sd_line (conflicts differences)
           ++ [banner "Local to SD Sync Complete. 0 files processed/updated."]))).
Proof.
  split; intros Hnone Hold.
  - unfold sync_sd_to_local, display_message. rewrite Hnone.
    cbn [for_each]. run_m. rewrite (skip_all_local h _ _ _ Hold).
    cbn [world printed]. by rewrite <- !app_assoc.
  - unfold sync_local_to_sd, display_message. rewrite Hnone.
    cbn [for_each]. run_m. rewrite (skip_all_sd h _ _ _ Hold).
    cbn [world printed]. by rewrite <- !app_assoc.
Qed.

Section LocalToSdFacts.
Variable h : Host.

Lemma local_to_sd_only_failed n local_file (st st' : Machine h) e :
  _run_conversion_script h "srm-to-sav.py" (path local_file)
    (sd_target local_file) st = (inl e, st') →
  local_to_sd_only h n local_file st
  = (inr n, say st' (error_copy_sd_line local_file e)).
Proof.
  intros H. unfold local_to_sd_only. fold (sd_target local_file).
  run_m. by rewrite H.
Qed.

Lemma local_to_sd_only_done n local_file (st st' : Machine h) out :
  _run_conversion_script h "srm-to-sav.py" (path local_file)
    (sd_target local_file) st = (inr out, st') →
  local_to_sd_only h n local_file st
  = (inr (n + 1), say st' (copied_sd_line local_file)).
Proof.
  intros H. unfold local_to_sd_only. fold (sd_target local_file).
  run_m. by rewrite H.
Qed.

End LocalToSdFacts.

(** X18. Towards the card too, a failed conversion stays with its item: the
    error is printed for that file, the count is kept, and the next
    local-only file is converted and counted; the conflicts that follow are
    then handled from the count reached. *)
Theorem local_to_sd_failure_is_isolated (h : Host) sd_info local_info failing
    next others cs (st st1 st2 : Machine h) e out :
  _run_conversion_script h "srm-to-sav.py" (path failing) (sd_target failing)
    (say st (banner "Initiating Sync: Local Folder to SD Card"))
  = (inl e, st1) →
  _run_conversion_script h "srm-to-sav.py" (path next) (sd_target next)
    (say st1 (error_copy_sd_line failing e))
  = (inr out, st2) →
  Forall (λ c, PrimFloat.ltb (mtime (sd c)) (mtime (local c)) = false) cs →
  sync_local_to_sd h sd_info local_info
    {| sd_only := others; local_only := [failing; next]; conflicts := cs |} st
  = (inr 1,
     mkMachine (world st2)
       (printed st2
        ++ copied_sd_line next :: map skip_sd_line cs
        ++ [banner "Local to SD Sync Complete. 1 files processed/updated."])).
Proof.
  intros Hfail Hnext Hold.
  unfold sync_local_to_sd, display_message.
  cbn [local_only conflicts for_each].
  run_m. fold (banner "Initiating Sync: Local Folder to SD Card").
  change (mkMachine (world st) (printed st ++ [?l])) with (say st l).
  rewrite (local_to_sd_only_failed h _ _ _ _ _ Hfail).
  rewrite (local_to_sd_only_done h _ _ _ _ _ Hnext).
  rewrite (skip_all_sd h _ _ _ Hold).
  cbn [say world printed]. by rewrite <- !app_assoc.
Qed.

Module JoinFacts.
Import PyStr PyStrFacts PosixPath SplitextFacts.

Lemma take_drop n (s : string) : take n s +:+ drop n s = s.
Proof.
  revert s. induction n as [|n IH]; intros [|c s]; try done.
  cbn [take drop]. by rewrite append_cons, IH.
Qed.

Lemma endswith_inv (a p : string) :
  endswith a p = true → ∃ a', a = a' +:+ p.
Proof.
  unfold endswith. intros H. apply andb_true_iff in H as [_ H].
  apply String.eqb_eq in H.
  exists (take (String.length a - String.length p) a).
  set (n := (String.length a - String.length p)%nat) in *.
  rewrite <- H. by rewrite take_drop.
Qed.

Lemma no_sep_not_startswith (f : string) :
  all_chars (λ a, negb (Ascii.eqb a sep)) f = true →
  startswith f (String sep "") = false.
Proof.
  unfold startswith. destruct f as [|c f]; [done|].
  cbn [all_chars]. intros H. apply andb_true_iff in H as [H _].
  rewrite prefix_cons, Ascii.eqb_sym. apply negb_true_iff in H. by rewrite H.
Qed.

Lemma basename_after_sep (a f : string) :
  all_chars (λ c, negb (Ascii.eqb c sep)) f = true →
  basename (a +:+ String sep f) = f.
Proof.
  intros Hf. unfold basename, rfind.
  rewrite rfind_from_last by (lia || done).
  rewrite Z.add_0_l.
  replace (Z.to_nat (Z.of_nat (String.length a) + 1))
    with (String.length (a +:+ String sep "")).
  - replace (a +:+ String sep f) with ((a +:+ String sep "") +:+ f)
      by (by rewrite append_assoc).
    apply drop_app.
  - rewrite length_app. simpl. lia.
Qed.

Lemma basename_no_sep (f : string) :
  all_chars (λ c, negb (Ascii.eqb c sep)) f = true → basename f = f.
Proof.
  intros Hf. unfold basename, rfind. by rewrite rfind_from_absent.
Qed.

(** The entry name is recovered from the path the scanner stores. *)
Lemma basename_join d f :
  all_chars (λ c, negb (Ascii.eqb c sep)) f = true →
  basename (join d [f]) = f.
Proof.
  intros Hf. unfold join, join2. cbn [fold_left].
  rewrite (no_sep_not_startswith _ Hf).
  destruct (String.eqb d "") eqn:Hd.
  - apply String.eqb_eq in Hd as ->. cbn [orb].
    change ("" +:+ f) with f. by apply basename_no_sep.
  - cbn [orb]. destruct (endswith d (String sep "")) eqn:He.
    + apply endswith_inv in He as [a ->]. rewrite append_assoc.
      by apply basename_after_sep.
    + by apply basename_after_sep.
Qed.

Lemma join_plain (d f : string) :
  String.eqb d "" || endswith d (String sep "") = false →
  all_chars (λ c, negb (Ascii.eqb c sep)) f = true →
  join d [f] = d +:+ String sep "" +:+ f.
Proof.
  intros Hd Hf. unfold join, join2. cbn [fold_left].
  by rewrite (no_sep_not_startswith _ Hf), Hd.
Qed.

End JoinFacts.

Lemma scan_name_srm stem e :
  all_chars (λ a, negb (Ascii.eqb a PosixPath.sep)) stem = true →
  all_chars (λ a, Ascii.eqb a PosixPath.extsep) stem = false →
  PyStr.startswith stem "._" = false →
  PyStr.lower e = ".srm" →
  PosixPath.splitext (stem +:+ e) = (stem, e)
  ∧ scan_name (Some [".srm"]) (stem +:+ e) = Some (PyStr.lower stem, ".srm").
Proof.
  intros Hsep Hdots Hmeta He.
  destruct (SplitextFacts.dotted_tail_shape e "s" "r" "m" He)
    as (re & -> & Hre_sep & Hre_dot); try done.
  assert (PosixPath.splitext (stem +:+ String PosixPath.extsep re)
          = (stem, String PosixPath.extsep re)) as Hsplit
    by (by apply SplitextFacts.splitext_app).
  split; [done|]. unfold scan_name.
  rewrite SplitextFacts.startswith_metadata_app by done.
  rewrite Hsplit. unfold ext_not_listed, true_basename_of. rewrite He.
  done.
Qed.

(** X19. A save that is only on the card under an ordinary name
    [stem.gba.sav] (any letter case, a stem without separator that is not
    made of dots only and does not start with ["._"]) is converted to
    [stem.srm] in the local folder, and that name is scanned under the same
    key as the card's file: the copy and its source meet at the next
    comparison. *)
Theorem sd_only_copy_keeps_key directory stem tag e m :
  all_chars (λ a, negb (Ascii.eqb a PosixPath.sep)) stem = true →
  all_chars (λ a, Ascii.eqb a PosixPath.extsep) stem = false →
  PyStr.startswith stem "._" = false →
  PyStr.lower tag = ".gba" →
  PyStr.lower e = ".sav" →
  local_target {| path := PosixPath.join directory [stem +:+ tag +:+ e];
                  mtime := m; ext := ".sav" |}
  = LOCAL_SAVES_PATH +:+ "/" +:+ stem +:+ ".srm"
  ∧ scan_name (Some [".sav"]) (stem +:+ tag +:+ e)
    = Some (PyStr.lower stem, ".sav")
  ∧ scan_name (Some [".srm"]) (stem +:+ ".srm")
    = Some (PyStr.lower stem, ".srm").
Proof.
  intros Hsep Hdots Hmeta Htag He.
  destruct (scan_name_tagged_save stem tag e Hsep Hdots Hmeta Htag He)
    as (Hsplit & Hbase & Hscan).
  destruct (scan_name_srm stem ".srm" Hsep Hdots Hmeta eq_refl) as [_ Hsrm].
  split; [|split; [|done]].
  - destruct (SplitextFacts.dotted_tail_shape tag "g" "b" "a" Htag)
      as (rt & -> & Hrt_sep & Hrt_dot); try done.
    destruct (SplitextFacts.dotted_tail_shape e "s" "a" "v" He)
      as (re & -> & Hre_sep & Hre_dot); try done.
    unfold local_target. cbn [path].
    rewrite JoinFacts.basename_join.
    2:{ rewrite !SplitextFacts.all_chars_app, Hsep. cbn [all_chars].
        by rewrite Hrt_sep, Hre_sep. }
    rewrite Hsplit. cbn [fst].
    rewrite SplitextFacts.splitext_app by done. cbn [fst].
    apply JoinFacts.join_plain; [done|].
    by rewrite SplitextFacts.all_chars_app, Hsep.
  - apply Hscan. unfold ext_not_listed. by rewrite He.
Qed.

(** X20. A save that is only in the local folder under an ordinary name
    [stem.srm] is converted to [stem.gba.sav] on the card, and that name is
    scanned under the same key as the local file. *)
Theorem local_only_copy_keeps_key directory stem e m :
  all_chars (λ a, negb (Ascii.eqb a PosixPath.sep)) stem = true →
  all_chars (λ a, Ascii.eqb a PosixPath.extsep) stem = false →
  PyStr.startswith stem "._" = false →
  PyStr.lower e = ".srm" →
  sd_target {| path := PosixPath.join directory [stem +:+ e];
               mtime := m; ext := ".srm" |}
  = SD_CARD_SAVES_PATH +:+ "/" +:+ stem +:+ ".gba.sav"
  ∧ scan_name (Some [".srm"]) (stem +:+ e)
    = Some (PyStr.lower stem, ".srm")
  ∧ scan_name (Some [".sav"]) (stem +:+ ".gba.sav")
    = Some (PyStr.lower stem, ".sav").
Proof.
  intros Hsep Hdots Hmeta He.
  destruct (scan_name_srm stem e Hsep Hdots Hmeta He) as [Hsplit Hsrm].
  destruct (scan_name_tagged_save stem ".gba" ".sav" Hsep Hdots Hmeta
              eq_refl eq_refl) as (_ & _ & Hscan).
  split; [|split; [done|]].
  - destruct (SplitextFacts.dotted_tail_shape e "s" "r" "m" He)
      as (re & -> & Hre_sep & Hre_dot); try done.
    unfold sd_target. cbn [path].
    rewrite JoinFacts.basename_join.
    2:{ rewrite !SplitextFacts.all_chars_app, Hsep. cbn [all_chars].
        by rewrite Hre_sep. }
    rewrite Hsplit. cbn [fst].
    apply JoinFacts.join_plain; [done|].
    by rewrite SplitextFacts.all_chars_app, Hsep.
  - by apply Hscan.
Qed.

Lemma any_difference_false differences :
  any_difference differences = false
  ↔ sd_only differences = [] ∧ local_only differences = []
    ∧ conflicts differences = [].
Proof.
  unfold any_difference.
  destruct (sd_only differences), (local_only differences),
    (conflicts differences);
    split; intros H; try done; by destruct H as (? & ? & ?).
Qed.

Lemma print_differences_false ctime differences :
  snd (print_differences ctime differences) = Some false
  ↔ any_difference differences = false.
Proof.
  unfold print_differences. destruct (any_difference differences); cbn [negb].
  - destruct (report_section _ _ (sd_only differences)) as [l1 [|]]; cbn [negb];
      [|done].
    destruct (report_section _ _ (local_only differences)) as [l2 [|]];
      cbn [negb]; [|done].
    by destruct (report_section _ _ (conflicts differences)) as [l3 [|]].
  - done.
Qed.




(** X22. Scanned as [main] scans them, the card for [.sav] and the local
    folder for [.srm], two folders are reported as in sync only when neither
    holds a save: a game on one side only is a difference, and a game on
    both sides is always a conflict. *)
Theorem in_sync_only_when_empty fs_sd dir_sd fs_local dir_local ctime
    sd_info printed_sd local_info printed_local :
  get_file_info fs_sd dir_sd (Some [".sav"]) = Some (sd_info, printed_sd) →
  get_file_info fs_local dir_local (Some [".srm"])
  = Some (local_info, printed_local) →
  snd (print_differences ctime (compare_folders sd_info local_info))
  = Some false →
  sd_info = ∅ ∧ local_info = ∅.
Proof.
  intros Hsd Hlocal Hsync.
  apply print_differences_false, any_difference_false in Hsync
    as (H1 & H2 & H3).
  rewrite compare_folders_lists in H1, H2, H3. cbn in H1, H2, H3.
  assert (∀ k, sd_info !! k = None ∧ local_info !! k = None) as Hnone.
  { intros k.
    destruct (sd_info !! k) as [ra|] eqn:Ea, (local_info !! k) as [rb|] eqn:Eb;
      [| | |done]; exfalso.
    - destruct (get_file_info_origin _ _ _ _ _ _ _ Hsd Ea)
        as (? & ? & _ & _ & Hn1 & _).
      destruct (get_file_info_origin _ _ _ _ _ _ _ Hlocal Eb)
        as (? & ? & _ & _ & Hn2 & _).
      apply scan_name_facts in Hn1 as (_ & _ & _ & Hx1).
      apply scan_name_facts in Hn2 as (_ & _ & _ & Hx2).
      specialize (Hx1 eq_refl). specialize (Hx2 eq_refl).
      apply list_elem_of_singleton in Hx1, Hx2.
      assert ({| basename := k; sd := ra; local := rb |}
              ∈ omap (conflict_of sd_info local_info)
                     (all_basenames sd_info local_info)) as Hin.
      { apply list_elem_of_omap. exists k. split.
        - apply elem_of_all_basenames. left. by rewrite Ea.
        - unfold conflict_of. rewrite Ea, Eb, Hx1, Hx2. by rewrite orb_true_r. }
      rewrite H3 in Hin. by apply elem_of_nil in Hin.
    - assert (ra ∈ omap (sd_only_of sd_info local_info)
                        (all_basenames sd_info local_info)) as Hin.
      { apply list_elem_of_omap. exists k. split.
        - apply elem_of_all_basenames. left. by rewrite Ea.
        - unfold sd_only_of. by rewrite Ea, Eb. }
      rewrite H1 in Hin. by apply elem_of_nil in Hin.
    - assert (rb ∈ omap (local_only_of sd_info local_info)
                        (all_basenames sd_info local_info)) as Hin.
      { apply list_elem_of_omap. exists k. split.
        - apply elem_of_all_basenames. right. by rewrite Eb.
        - unfold local_only_of. by rewrite Ea, Eb. }
      rewrite H2 in Hin. by apply elem_of_nil in Hin. }
  split; apply map_empty; intros k; apply Hnone.
Qed.

Section MenuFacts.
Variable h : Host.

Lemma prompt_loop_refused sd_info local_info differences bad rest (st : Machine h) :
  Forall (λ l, PyStr.strip l ∉ ["1"; "2"; "3"]) bad →
  prompt_loop h sd_info local_info differences (bad ++ rest) st
  = prompt_loop h sd_info local_info differences rest
      (says st (concat (map (λ _, refused) bad))).
Proof.
  intros Hbad. revert st. induction Hbad as [|l bad Hl Hbad IH]; intros st.
  - cbn [app map concat]. unfold says. rewrite app_nil_r. by destruct st.
  - cbn [app prompt_loop].
    assert (String.eqb (PyStr.strip l) "1" = false) as ->.
    { apply String.eqb_neq. intros E. apply Hl. rewrite E.
      repeat (apply list_elem_of_here || apply list_elem_of_further). }
    assert (String.eqb (PyStr.strip l) "2" = false) as ->.
    { apply String.eqb_neq. intros E. apply Hl. rewrite E.
      repeat (apply list_elem_of_here || apply list_elem_of_further). }
    assert (String.eqb (PyStr.strip l) "3" = false) as ->.
    { apply String.eqb_neq. intros E. apply Hl. rewrite E.
      repeat (apply list_elem_of_here || apply list_elem_of_further). }
    rewrite IH. f_equal. unfold says, say, refused. cbn [world printed map concat].
    f_equal. by rewrite <- !app_assoc.
Qed.

End MenuFacts.

(** X23. At the menu, an answer other than 1, 2 or 3 (after stripping
    blanks) is refused and the menu is shown again; answer 3 then ends the
    run normally with nothing converted and the later input unread; and when
    the input ends before a valid answer, [input] raises [EOFError], again
    with nothing converted. *)
Theorem menu_refuses_then_exits (h : Host) sd_info local_info differences bad
    (st : Machine h) :
  Forall (λ l, PyStr.strip l ∉ ["1"; "2"; "3"]) bad →
  (∀ l rest, PyStr.strip l = "3" →
     prompt_loop h sd_info local_info differences (bad ++ l :: rest) st
     = (Returned,
        says st (concat (map (λ _, refused) bad)
                 ++ menu ++ [prompt; "Exiting without syncing. Goodbye!"]),
        rest))
  ∧ prompt_loop h sd_info local_info differences bad st
    = (EOFError,
       says st (concat (map (λ _, refused) bad) ++ menu ++ [prompt]),
       []).
Proof.
  intros Hbad. split.
  - intros l rest Hl. rewrite (prompt_loop_refused h _ _ _ _ _ _ Hbad).
    cbn [prompt_loop]. rewrite Hl. cbn.
    unfold says, say. cbn [world printed]. by rewrite <- !app_assoc.
  - rewrite <- (app_nil_r bad) at 1.
    rewrite (prompt_loop_refused h _ _ _ _ _ _ Hbad).
    cbn [prompt_loop]. unfold says, say. cbn [world printed].
    by rewrite <- !app_assoc.
Qed.

(** X24. Answer 1 runs the sync towards the local folder once, from the
    machine reached after the refused answers and the menu, and [main] then
    returns normally; answer 2 does the same towards the card. *)
Theorem menu_runs_chosen_direction (h : Host) sd_info local_info differences
    bad l rest (st : Machine h) :
  Forall (λ l, PyStr.strip l ∉ ["1"; "2"; "3"]) bad →
  (PyStr.strip l = "1" →
   ∃ n st',
     sync_sd_to_local h sd_info local_info differences
       (says st (concat (map (λ _, refused) bad) ++ menu ++ [prompt]))
     = (inr n, st')
     ∧ prompt_loop h sd_info local_info differences (bad ++ l :: rest) st
       = (Returned, st', rest))
  ∧ (PyStr.strip l = "2" →
     ∃ n st',
       sync_local_to_sd h sd_info local_info differences
         (says st (concat (map (λ _, refused) bad) ++ menu ++ [prompt]))
       = (inr n, st')
       ∧ prompt_loop h sd_info local_info differences (bad ++ l :: rest) st
         = (Returned, st', rest)).
Proof.
  intros Hbad.
  assert (say (says (says st (concat (map (λ _, refused) bad))) menu) prompt
          = says st (concat (map (λ _, refused) bad) ++ menu ++ [prompt])) as E.
  { unfold says, say. cbn [world printed]. by rewrite <- !app_assoc. }
  split; intros Hl.
  - destruct (sync_sd_to_local_contained h sd_info local_info differences
                (says st (concat (map (λ _, refused) bad) ++ menu ++ [prompt])))
      as (n & st' & Hrun & _).
    exists n, st'. split; [done|].
    rewrite (prompt_loop_refused h _ _ _ _ _ _ Hbad).
    cbn [prompt_loop]. rewrite Hl, E, Hrun. done.
  - destruct (sync_local_to_sd_contained h sd_info local_info differences
                (says st (concat (map (λ _, refused) bad) ++ menu ++ [prompt])))
      as (n & st' & Hrun & _).
    exists n, st'. split; [done|].
    rewrite (prompt_loop_refused h _ _ _ _ _ _ Hbad).
    cbn [prompt_loop]. rewrite Hl, E, Hrun. done.
Qed.

(** X25. Without the card, [main] stops before anything else: when the
    card's base folder or its saves folder is missing, it prints its
    heading and three lines, returns, leaves the world as it was and reads
    no input. *)
Theorem main_without_card (t : Terminal) stdin (st : Machine (term_host t)) :
  path_isdir t SD_CARD_BASE_PATH (world st)
  && path_isdir t SD_CARD_SAVES_PATH (world st) = false →
  ∃ l1 l2 l3,
    main t stdin st
    = (Returned,
       says st [banner "GBA Save Sync Tool for Steam Deck"; l1; l2; l3],
       stdin).
Proof.
  intros H. unfold main. cbn [say world].
  destruct (path_isdir t SD_CARD_BASE_PATH (world st)); cbn [negb].
  - simpl in H. rewrite H. cbn [negb].
    eexists _, _, _. unfold says, say. cbn [world printed].
    by rewrite <- app_assoc.
  - eexists _, _, _. unfold says, say. cbn [world printed].
    by rewrite <- app_assoc.
Qed.

(** ** Witnesses of the further properties *)

Lemma scanned_record_is_listed_file_witness :
  get_file_info (card_fs ["zelda.gba.sav"]) SD_CARD_SAVES_PATH (Some [".sav"])
  = Some ({[ "zelda" := zelda_sav ]}, [])
  ∧ ∃ names filename,
      listdir (card_fs ["zelda.gba.sav"]) SD_CARD_SAVES_PATH = Some names
      ∧ filename ∈ names
      ∧ scan_name (Some [".sav"]) filename = Some ("zelda", ext zelda_sav)
      ∧ path zelda_sav = PosixPath.join SD_CARD_SAVES_PATH [filename]
      ∧ isfile (card_fs ["zelda.gba.sav"]) (path zelda_sav) = true
      ∧ getmtime (card_fs ["zelda.gba.sav"]) (path zelda_sav)
        = inr (mtime zelda_sav).
Proof.
  split; [vm_compute; reflexivity|].
  apply (scanned_record_is_listed_file (card_fs ["zelda.gba.sav"])
           SD_CARD_SAVES_PATH (Some [".sav"]) {[ "zelda" := zelda_sav ]} []
           "zelda" zelda_sav);
    vm_compute; reflexivity.
Defined.

Lemma scanned_ext_in_filter_witness :
  ext zelda_sav ∈ map PyStr.lower [".SAV"].
Proof.
  apply (scanned_ext_in_filter (card_fs ["zelda.gba.sav"]) SD_CARD_SAVES_PATH
           ".SAV" [] {[ "zelda" := zelda_sav ]} [] "zelda" zelda_sav);
    vm_compute; reflexivity.
Defined.

Lemma scanned_keys_lowercase_witness :
  get_file_info (card_fs ["Zelda.GBA.sav"]) SD_CARD_SAVES_PATH (Some [".sav"])
  = Some ({[ "zelda" := {| path := "/run/media/deck/MINUI/Saves/GBA/Zelda.GBA.sav";
                           mtime := 1700000000%float; ext := ".sav" |} ]}, [])
  ∧ PyStr.lower "zelda" = "zelda".
Proof.
  split; [vm_compute; reflexivity|].
  apply (scanned_keys_lowercase (card_fs ["Zelda.GBA.sav"]) SD_CARD_SAVES_PATH
           (Some [".sav"])
           {[ "zelda" := {| path := "/run/media/deck/MINUI/Saves/GBA/Zelda.GBA.sav";
                            mtime := 1700000000%float; ext := ".sav" |} ]} []
           "zelda"
           {| path := "/run/media/deck/MINUI/Saves/GBA/Zelda.GBA.sav";
              mtime := 1700000000%float; ext := ".sav" |});
    vm_compute; reflexivity.
Defined.

Lemma last_listed_file_wins_witness :
  ∃ files_info printed,
    get_file_info (card_fs ["game.sav"; "game.gba.sav"; "notes.txt"])
      SD_CARD_SAVES_PATH (Some [".sav"]) = Some (files_info, printed)
    ∧ files_info !! "game"
      = Some {| path := PosixPath.join SD_CARD_SAVES_PATH ["game.gba.sav"];
                mtime := 1700000000%float; ext := ".sav" |}.
Proof.
  apply (last_listed_file_wins
           (card_fs ["game.sav"; "game.gba.sav"; "notes.txt"])
           SD_CARD_SAVES_PATH (Some [".sav"]) ["game.sav"] "game.gba.sav"
           ["notes.txt"] "game" ".sav" 1700000000%float);
    try reflexivity.
  intros g e' Hg. apply list_elem_of_singleton in Hg. subst g.
  vm_compute. discriminate.
Defined.

Lemma scan_warnings_witness :
  get_file_info (locked_fs ["locked.gba.sav"; "zelda.gba.sav"])
    SD_CARD_SAVES_PATH (Some [".sav"])
  = Some ({[ "zelda" := zelda_sav ]},
          ["Warning: Could not get file information for /run/media/deck/MINUI/Saves/GBA/locked.gba.sav: [Errno 13] Permission denied"])
  ∧ ["Warning: Could not get file information for /run/media/deck/MINUI/Saves/GBA/locked.gba.sav: [Errno 13] Permission denied"]
    = if isdir (locked_fs ["locked.gba.sav"; "zelda.gba.sav"]) SD_CARD_SAVES_PATH
      then omap (warning_of (locked_fs ["locked.gba.sav"; "zelda.gba.sav"])
                            SD_CARD_SAVES_PATH (Some [".sav"]))
                ["locked.gba.sav"; "zelda.gba.sav"]
      else [].
Proof.
  split; [vm_compute; reflexivity|].
  apply (scan_warnings (locked_fs ["locked.gba.sav"; "zelda.gba.sav"])
           SD_CARD_SAVES_PATH (Some [".sav"])
           ["locked.gba.sav"; "zelda.gba.sav"] {[ "zelda" := zelda_sav ]});
    vm_compute; reflexivity.
Defined.

Lemma scanned_pairs_always_conflict_witness :
  mtimes_differ (mtime mario_scanned_sd) (mtime mario_scanned_local) = false
  ∧ {| basename := "mario"; sd := mario_scanned_sd;
       local := mario_scanned_local |}
    ∈ conflicts (compare_folders {[ "mario" := mario_scanned_sd ]}
                                 {[ "mario" := mario_scanned_local ]}).
Proof.
  split; [vm_compute; reflexivity|].
  apply (scanned_pairs_always_conflict
           (card_fs ["mario.gba.sav"]) SD_CARD_SAVES_PATH
           (local_fs ["mario.srm"]) LOCAL_SAVES_PATH
           {[ "mario" := mario_scanned_sd ]} []
           {[ "mario" := mario_scanned_local ]} []
           "mario" mario_scanned_sd mario_scanned_local);
    vm_compute; reflexivity.
Defined.

Lemma missing_script_stops_early_witness :
  ∃ msg,
    _run_conversion_script (fixed_host (λ _, false) (inr tt) exit_ok)
      "sav-to-srm.py" (path zelda_sav) zelda_target
      (fixed_machine (λ _, false) (inr tt) exit_ok [] [])
    = (inl (FileNotFoundError msg),
       fixed_machine (λ _, false) (inr tt) exit_ok [] [])
    ∧ carries msg "/opt/gba-rom-save-tool/srm-to-sav/sav-to-srm.py".
Proof.
  apply (missing_script_stops_early (fixed_host (λ _, false) (inr tt) exit_ok)
           "sav-to-srm.py" (path zelda_sav) zelda_target
           (fixed_machine (λ _, false) (inr tt) exit_ok [] [])).
  reflexivity.
Defined.

Lemma makedirs_failure_propagates_witness :
  _run_conversion_script (fixed_host only_script read_only exit_ok)
    "sav-to-srm.py" (path zelda_sav) zelda_target
    (fixed_machine only_script read_only exit_ok [] [])
  = (inl (OSError "[Errno 30] Read-only file system"),
     fixed_machine only_script read_only exit_ok [] [])
  ∧ printed (fixed_machine only_script read_only exit_ok [] []) = [].
Proof.
  apply (makedirs_failure_propagates (fixed_host only_script read_only exit_ok)
           "sav-to-srm.py" (path zelda_sav) zelda_target
           (fixed_machine only_script read_only exit_ok [] [])
           (fixed_machine only_script read_only exit_ok [] []));
    reflexivity.
Defined.

Lemma launch_failure_is_wrapped_witness :
  _run_conversion_script (fixed_host (λ _, true) (inr tt) no_interpreter)
    "sav-to-srm.py" (path zelda_sav) zelda_target
    (fixed_machine (λ _, true) (inr tt) no_interpreter [] [])
  = (inl (IOError "Failed to run conversion command: [Errno 2] No such file or directory: '/usr/bin/python3'"),
     fixed_machine (λ _, true) (inr tt) no_interpreter
       [["/usr/bin/python3"; "/opt/gba-rom-save-tool/srm-to-sav/sav-to-srm.py";
         "-i"; path zelda_sav; "-o"; zelda_target]]
       [executing_line (fixed_host (λ _, true) (inr tt) no_interpreter)
          "sav-to-srm.py" (path zelda_sav) zelda_target]).
Proof.
  apply (launch_failure_is_wrapped
           (fixed_host (λ _, true) (inr tt) no_interpreter)
           "sav-to-srm.py" (path zelda_sav) zelda_target
           (fixed_machine (λ _, true) (inr tt) no_interpreter [] [])
           (fixed_machine (λ _, true) (inr tt) no_interpreter [] [])
           (FileNotFoundError "[Errno 2] No such file or directory: '/usr/bin/python3'")
           [["/usr/bin/python3";
             "/opt/gba-rom-save-tool/srm-to-sav/sav-to-srm.py";
             "-i"; path zelda_sav; "-o"; zelda_target]]);
    reflexivity.
Defined.

Lemma success_means_exit_zero_witness :
  zelda_target = zelda_target
  ∧ ∃ st1 result,
      ensure_output_dir (fixed_host (λ _, true) (inr tt) exit_ok) zelda_target
        (fixed_machine (λ _, true) (inr tt) exit_ok [] [])
      = (inr tt, st1)
      ∧ subprocess_run (fixed_host (λ _, true) (inr tt) exit_ok)
          (command_of (fixed_host (λ _, true) (inr tt) exit_ok)
             (script_path (fixed_host (λ _, true) (inr tt) exit_ok)
                          "sav-to-srm.py")
             (path zelda_sav) zelda_target)
          "/opt/gba-rom-save-tool/srm-to-sav" (world st1)
        = (inr result,
           [["/usr/bin/python3";
             "/opt/gba-rom-save-tool/srm-to-sav/sav-to-srm.py";
             "-i"; path zelda_sav; "-o"; zelda_target]])
      ∧ returncode result = 0%Z
      ∧ [executing_line (fixed_host (λ _, true) (inr tt) exit_ok)
           "sav-to-srm.py" (path zelda_sav) zelda_target]
        = [] ++ [executing_line (fixed_host (λ _, true) (inr tt) exit_ok)
                   "sav-to-srm.py" (path zelda_sav) zelda_target].
Proof.
  apply (success_means_exit_zero (fixed_host (λ _, true) (inr tt) exit_ok)
           "sav-to-srm.py" (path zelda_sav) zelda_target
           (fixed_machine (λ _, true) (inr tt) exit_ok [] [])
           (fixed_machine (λ _, true) (inr tt) exit_ok
              [["/usr/bin/python3";
                "/opt/gba-rom-save-tool/srm-to-sav/sav-to-srm.py";
                "-i"; path zelda_sav; "-o"; zelda_target]]
              [executing_line (fixed_host (λ _, true) (inr tt) exit_ok)
                 "sav-to-srm.py" (path zelda_sav) zelda_target])
           zelda_target).
  reflexivity.
Defined.

Lemma exit_zero_returns_output_path_witness :
  _run_conversion_script (fixed_host (λ _, true) (inr tt) exit_ok)
    "sav-to-srm.py" (path zelda_sav) zelda_target
    (fixed_machine (λ _, true) (inr tt) exit_ok [] [])
  = (inr zelda_target,
     fixed_machine (λ _, true) (inr tt) exit_ok
       [["/usr/bin/python3"; "/opt/gba-rom-save-tool/srm-to-sav/sav-to-srm.py";
         "-i"; path zelda_sav; "-o"; zelda_target]]
       [executing_line (fixed_host (λ _, true) (inr tt) exit_ok)
          "sav-to-srm.py" (path zelda_sav) zelda_target]).
Proof.
  apply (exit_zero_returns_output_path
           (fixed_host (λ _, true) (inr tt) exit_ok)
           "sav-to-srm.py" (path zelda_sav) zelda_target
           (fixed_machine (λ _, true) (inr tt) exit_ok [] [])
           (fixed_machine (λ _, true) (inr tt) exit_ok [] [])
           {| returncode := 0; stdout := "ok"; stderr := "" |});
    reflexivity.
Defined.

Lemma not_a_choice l :
  String.eqb (PyStr.strip l) "1" || String.eqb (PyStr.strip l) "2"
  || String.eqb (PyStr.strip l) "3" = false →
  PyStr.strip l ∉ ["1"; "2"; "3"].
Proof.
  intros H. apply orb_false_iff in H as [H H3].
  apply orb_false_iff in H as [H1 H2].
  apply String.eqb_neq in H1, H2, H3. intros Hin.
  rewrite !elem_of_cons in Hin.
  destruct Hin as [?|[?|[?|Hin]]]; [done|done|done|].
  by apply elem_of_nil in Hin.
Qed.

Lemma nothing_newer_nothing_run_witness :
  sync_sd_to_local (demo_host never_fails) ∅ ∅
    {| sd_only := []; local_only := [kirby_srm]; conflicts := [local_win] |}
    (demo_machine never_fails [] [])
  = (inr 0,
     demo_machine never_fails []
       ([] ++ banner "Initiating Sync: SD Card to Local Folder"
           :: map skip_local_line [local_win]
        ++ [banner "SD to Local Sync Complete. 0 files processed/updated."]))
  ∧ sync_local_to_sd (demo_host never_fails) ∅ ∅
      {| sd_only := [zelda_sav]; local_only := []; conflicts := [clear_win] |}
      (demo_machine never_fails [] [])
    = (inr 0,
       demo_machine never_fails []
         ([] ++ banner "Initiating Sync: Local Folder to SD Card"
             :: map skip_sd_line [clear_win]
          ++ [banner "Local to SD Sync Complete. 0 files processed/updated."])).
Proof.
  split.
  - apply (proj1 (nothing_newer_nothing_run (demo_host never_fails) ∅ ∅
                    {| sd_only := []; local_only := [kirby_srm];
                       conflicts := [local_win] |}
                    (demo_machine never_fails [] [])));
      [reflexivity | repeat constructor].
  - apply (proj2 (nothing_newer_nothing_run (demo_host never_fails) ∅ ∅
                    {| sd_only := [zelda_sav]; local_only := [];
                       conflicts := [clear_win] |}
                    (demo_machine never_fails [] [])));
      [reflexivity | repeat constructor].
Defined.

Lemma local_to_sd_failure_is_isolated_witness :
  sync_local_to_sd (demo_host fails_on_bad_srm) ∅ ∅
    {| sd_only := []; local_only := [bad_srm; kirby_srm];
       conflicts := [clear_win] |}
    (demo_machine fails_on_bad_srm [] [])
  = (inr 1,
     demo_machine fails_on_bad_srm
       [demo_sd_command bad_srm; demo_sd_command kirby_srm]
       ([banner "Initiating Sync: Local Folder to SD Card";
         executing_line (demo_host fails_on_bad_srm) "srm-to-sav.py"
           (path bad_srm) (sd_target bad_srm);
         error_copy_sd_line bad_srm bad_srm_error;
         executing_line (demo_host fails_on_bad_srm) "srm-to-sav.py"
           (path kirby_srm) (sd_target kirby_srm)]
        ++ "  -> Copied 'kirby.srm' (Local) to 'kirby.gba.sav' (SD)."
           :: map skip_sd_line [clear_win]
        ++ [banner "Local to SD Sync Complete. 1 files processed/updated."])).
Proof.
  apply (local_to_sd_failure_is_isolated (demo_host fails_on_bad_srm) ∅ ∅
           bad_srm kirby_srm [] [clear_win]
           (demo_machine fails_on_bad_srm [] [])
           (demo_machine fails_on_bad_srm [demo_sd_command bad_srm]
              [banner "Initiating Sync: Local Folder to SD Card";
               executing_line (demo_host fails_on_bad_srm) "srm-to-sav.py"
                 (path bad_srm) (sd_target bad_srm)])
           (demo_machine fails_on_bad_srm
              [demo_sd_command bad_srm; demo_sd_command kirby_srm]
              [banner "Initiating Sync: Local Folder to SD Card";
               executing_line (demo_host fails_on_bad_srm) "srm-to-sav.py"
                 (path bad_srm) (sd_target bad_srm);
               error_copy_sd_line bad_srm bad_srm_error;
               executing_line (demo_host fails_on_bad_srm) "srm-to-sav.py"
                 (path kirby_srm) (sd_target kirby_srm)])
           bad_srm_error (sd_target kirby_srm));
    [vm_compute; reflexivity | vm_compute; reflexivity | repeat constructor].
Defined.

Lemma sd_only_copy_keeps_key_witness :
  local_target {| path := PosixPath.join SD_CARD_SAVES_PATH
                            ["Zelda" +:+ ".GBA" +:+ ".sav"];
                  mtime := 1700000000%float; ext := ".sav" |}
  = LOCAL_SAVES_PATH +:+ "/" +:+ "Zelda" +:+ ".srm"
  ∧ scan_name (Some [".sav"]) ("Zelda" +:+ ".GBA" +:+ ".sav")
    = Some (PyStr.lower "Zelda", ".sav")
  ∧ scan_name (Some [".srm"]) ("Zelda" +:+ ".srm")
    = Some (PyStr.lower "Zelda", ".srm").
Proof.
  apply (sd_only_copy_keeps_key SD_CARD_SAVES_PATH "Zelda" ".GBA" ".sav"
           1700000000%float);
    reflexivity.
Defined.

Lemma local_only_copy_keeps_key_witness :
  sd_target {| path := PosixPath.join LOCAL_SAVES_PATH ["Kirby" +:+ ".SRM"];
               mtime := 1700000000%float; ext := ".srm" |}
  = SD_CARD_SAVES_PATH +:+ "/" +:+ "Kirby" +:+ ".gba.sav"
  ∧ scan_name (Some [".srm"]) ("Kirby" +:+ ".SRM")
    = Some (PyStr.lower "Kirby", ".srm")
  ∧ scan_name (Some [".sav"]) ("Kirby" +:+ ".gba.sav")
    = Some (PyStr.lower "Kirby", ".sav").
Proof.
  apply (local_only_copy_keeps_key LOCAL_SAVES_PATH "Kirby" ".SRM"
           1700000000%float);
    reflexivity.
Defined.


Lemma in_sync_only_when_empty_witness :
  get_file_info (card_fs ["notes.txt"]) SD_CARD_SAVES_PATH (Some [".sav"])
  = Some (∅, [])
  ∧ get_file_info (local_fs []) LOCAL_SAVES_PATH (Some [".srm"]) = Some (∅, [])
  ∧ (∅ : gmap string FileRecord) = ∅
  ∧ (∅ : gmap string FileRecord) = ∅.
Proof.
  split; [vm_compute; reflexivity|]. split; [vm_compute; reflexivity|].
  apply (in_sync_only_when_empty (card_fs ["notes.txt"]) SD_CARD_SAVES_PATH
           (local_fs []) LOCAL_SAVES_PATH fixed_ctime ∅ [] ∅ []);
    vm_compute; reflexivity.
Defined.

Lemma menu_refuses_then_exits_witness :
  prompt_loop (demo_host never_fails) ∅ ∅
    {| sd_only := [zelda_sav]; local_only := []; conflicts := [] |}
    (["4"; " yes "] ++ " 3 " :: ["1"]) (demo_machine never_fails [] [])
  = (Returned,
     says (demo_machine never_fails [] [])
       (concat (map (λ _, refused) ["4"; " yes "])
        ++ menu ++ [prompt; "Exiting without syncing. Goodbye!"]),
     ["1"])
  ∧ prompt_loop (demo_host never_fails) ∅ ∅
      {| sd_only := [zelda_sav]; local_only := []; conflicts := [] |}
      ["4"; " yes "] (demo_machine never_fails [] [])
    = (EOFError,
       says (demo_machine never_fails [] [])
         (concat (map (λ _, refused) ["4"; " yes "]) ++ menu ++ [prompt]),
       []).
Proof.
  assert (Forall (λ l, PyStr.strip l ∉ ["1"; "2"; "3"]) ["4"; " yes "]) as Hbad.
  { constructor; [by apply not_a_choice|].
    constructor; [by apply not_a_choice|]. constructor. }
  split.
  - apply (proj1 (menu_refuses_then_exits (demo_host never_fails) ∅ ∅
                    {| sd_only := [zelda_sav]; local_only := [];
                       conflicts := [] |}
                    ["4"; " yes "] (demo_machine never_fails [] []) Hbad)).
    reflexivity.
  - apply (proj2 (menu_refuses_then_exits (demo_host never_fails) ∅ ∅
                    {| sd_only := [zelda_sav]; local_only := [];
                       conflicts := [] |}
                    ["4"; " yes "] (demo_machine never_fails [] []) Hbad)).
Defined.

Lemma menu_runs_chosen_direction_witness :
  ∃ n st',
    sync_sd_to_local (demo_host never_fails) ∅ ∅
      {| sd_only := [zelda_sav]; local_only := []; conflicts := [] |}
      (says (demo_machine never_fails [] [])
         (concat (map (λ _, refused) ["x"]) ++ menu ++ [prompt]))
    = (inr n, st')
    ∧ prompt_loop (demo_host never_fails) ∅ ∅
        {| sd_only := [zelda_sav]; local_only := []; conflicts := [] |}
        (["x"] ++ "1 " :: ["3"]) (demo_machine never_fails [] [])
      = (Returned, st', ["3"]).
Proof.
  apply (proj1 (menu_runs_chosen_direction (demo_host never_fails) ∅ ∅
                  {| sd_only := [zelda_sav]; local_only := []; conflicts := [] |}
                  ["x"] "1 " ["3"] (demo_machine never_fails [] [])
                  ltac:(constructor;
                        [by apply not_a_choice | constructor]))).
  reflexivity.
Defined.

Lemma main_without_card_witness :
  ∃ l1 l2 l3,
    main (demo_terminal no_dirs) ["1"] (demo_machine never_fails [] [])
    = (Returned,
       says (demo_machine never_fails [] [])
         [banner "GBA Save Sync Tool for Steam Deck"; l1; l2; l3],
       ["1"]).
Proof.
  apply (main_without_card (demo_terminal no_dirs) ["1"]
           (demo_machine never_fails [] [])).
  reflexivity.
Defined.
